(** * The collaborative workflow of [agent/graph.py]

    A shallow embedding of the routing core of the multi-agent workflow:
    the shared state record, the three step functions
    ([enhanced_architect], [sql_analyst_step], [developer_step]), the two
    routers ([route_after_architect], [route_after_sql]) and the way a
    node's returned fields are merged into the state.

    The three agents are opaque calls into code that is not part of
    [graph.py]; they are section variables, and every theorem holds for
    all of them. *)

From Stdlib Require Import List NArith ZArith Bool String Ascii DecimalString Lia.
Import ListNotations.

Set Warnings "-register-all".

(* ================================================================== *)
(** * Python text *)
(* ================================================================== *)

(** A Python [str] is a sequence of Unicode code points. *)
Definition text := list N.

(** A literal of the source, whose characters are all ASCII. *)
Definition lit (s : string) : text :=
  map N_of_ascii (list_ascii_of_string s).

Definition nl : text := [10%N].

Fixpoint text_eqb (a b : text) : bool :=
  match a, b with
  | [], [] => true
  | x :: a', y :: b' => N.eqb x y && text_eqb a' b'
  | _, _ => false
  end.

(** [s.startswith(needle)]. *)
Fixpoint startswith (needle s : text) : bool :=
  match needle, s with
  | [], _ => true
  | _ :: _, [] => false
  | x :: needle', y :: s' => N.eqb x y && startswith needle' s'
  end.

(** [needle in s] on two strings: [needle] is a contiguous part of [s]. *)
Fixpoint str_in (needle s : text) : bool :=
  startswith needle s ||
  match s with
  | [] => false
  | _ :: s' => str_in needle s'
  end.

(** The same as a proposition. *)
Definition occurs (needle s : text) : Prop :=
  exists pre post, s = pre ++ needle ++ post.

(** [sep.join(parts)]. *)
Fixpoint join (sep : text) (parts : list text) : text :=
  match parts with
  | [] => []
  | [p] => p
  | p :: rest => p ++ sep ++ join sep rest
  end.

(** ** [str.lower]

    Lower-casing works code point by code point.  On the ASCII range it
    maps [A]..[Z] to [a]..[z] and leaves everything else alone.  Above
    it the replacement comes from the Unicode character database, may
    be several code points long and, for the capital sigma, depends on
    the surrounding text; that table is the parameter [unicode_lower],
    which receives the text before the code point, the code point and
    the text after it. *)

Definition ascii_lower (c : N) : N :=
  if (65 <=? c)%N && (c <=? 90)%N then (c + 32)%N else c.

Definition is_ascii (c : N) : bool := (c <? 128)%N.

Section Lower.
Variable unicode_lower : text -> N -> text -> text.

Definition lower_cp (pre : text) (c : N) (post : text) : text :=
  if is_ascii c then [ascii_lower c] else unicode_lower pre c post.

Fixpoint lower_from (pre s : text) : text :=
  match s with
  | [] => []
  | c :: post => lower_cp pre c post ++ lower_from (pre ++ [c]) post
  end.

Definition lower (s : text) : text := lower_from [] s.
End Lower.

(* ================================================================== *)
(** * Python values, dictionaries and exceptions *)
(* ================================================================== *)

(** The values a plan dictionary holds.  A [dict] keeps its insertion
    order, which [str] shows, so it is an association list with one
    entry per key. *)
Inductive value : Type :=
| VNone
| VBool (b : bool)
| VInt (z : Z)
| VFloat (bits : N)            (* an IEEE-754 binary64, by its bit pattern *)
| VStr (s : text)
| VList (xs : list value)
| VDict (kvs : list (text * value)).

Definition dict := list (text * value).

(** [d.get(key)]. *)
Fixpoint dict_get (d : dict) (key : text) : option value :=
  match d with
  | [] => None
  | (k, v) :: d' => if text_eqb k key then Some v else dict_get d' key
  end.

(** [d.get(key, dflt)]. *)
Definition dict_get_default (d : dict) (key : text) (dflt : value) : value :=
  match dict_get d key with
  | Some v => v
  | None => dflt
  end.

(** [v == "literal"]: only a string with the same code points is equal
    to a string. *)
Definition eq_str (v : value) (s : text) : bool :=
  match v with
  | VStr t => text_eqb t s
  | _ => false
  end.

(** Truth value of a sequence in a condition: it is not empty. *)
Definition nonempty {A : Type} (xs : list A) : bool :=
  match xs with
  | [] => false
  | _ :: _ => true
  end.

(** Exceptions a step can end with: the [IndexError] of indexing an
    empty sequence, and whatever an agent call raises, which no step
    catches. *)
Inductive exn : Type :=
| IndexError
| AgentError (detail : text).

Inductive outcome (A : Type) : Type :=
| Ok (a : A)
| Raise (e : exn).

Arguments Ok {A} a.
Arguments Raise {A} e.

Definition bind {A B : Type} (m : outcome A) (k : A -> outcome B) : outcome B :=
  match m with
  | Ok a => k a
  | Raise e => Raise e
  end.

Notation "x <- m ;; k" := (bind m (fun x => k))
  (at level 61, m at next level, right associativity).

(** [xs[-1]]. *)
Definition index_last {A : Type} (xs : list A) : outcome A :=
  match rev xs with
  | [] => Raise IndexError
  | x :: _ => Ok x
  end.

(* ================================================================== *)
(** * Messages and the shared state *)
(* ================================================================== *)

Inductive role : Type := Human | AI | System | Tool.

(** A [BaseMessage]: who wrote it and its content. *)
Record BaseMessage : Type := mkMessage {
  msg_role : role;
  content : text
}.

Definition HumanMessage (c : text) : BaseMessage := mkMessage Human c.
Definition AIMessage (c : text) : BaseMessage := mkMessage AI c.

(** Modelled from the spec: the record [SQLAnalysisResult] of
    [agent/analyst/state.py], which [graph.py] imports; its fields are
    the four that [graph.py] reads, with the types the data model
    gives them (the confidence is a number). *)
Record SQLAnalysisResult : Type := mkSQLAnalysisResult {
  query : text;
  explanation : text;
  confidence : value;
  warnings : list text
}.

(** [class CollaborativeState(BaseModel)], field by field with the
    declared types; every field has the declared default in
    [initial_state]. *)
Record CollaborativeState : Type := mkState {
  implementation_research_scratchpad : list BaseMessage;
  research_summary : text;
  implementation_plan : dict;
  collaboration_plan : dict;
  sql_analysis_result : option SQLAnalysisResult;
  sql_queries : list text;
  database_schema : text
}.

Definition initial_state (scratchpad : list BaseMessage) : CollaborativeState :=
  {| implementation_research_scratchpad := scratchpad;
     research_summary := [];
     implementation_plan := [];
     collaboration_plan := [];
     sql_analysis_result := None;
     sql_queries := [];
     database_schema := [] |}.

(** What a node returns: a mapping from some of the field names to new
    contents.  A field the node does not name is [None] here.  The SQL
    result is itself optional, so it is an option of an option. *)
Record StateUpdate : Type := mkUpdate {
  upd_implementation_research_scratchpad : option (list BaseMessage);
  upd_research_summary : option text;
  upd_implementation_plan : option dict;
  upd_collaboration_plan : option dict;
  upd_sql_analysis_result : option (option SQLAnalysisResult);
  upd_sql_queries : option (list text);
  upd_database_schema : option text
}.

Definition overwrite {A : Type} (old : A) (new : option A) : A :=
  match new with
  | Some a => a
  | None => old
  end.

Section Merge.
(** The reducer the scratchpad field is annotated with. *)
Variable add_messages : list BaseMessage -> list BaseMessage -> list BaseMessage.

(** The graph runtime's update of the state with a node's return
    value: a returned field replaces the old content (the scratchpad
    goes through its reducer), a field that is not returned stays. *)
Definition apply_update (s : CollaborativeState) (u : StateUpdate)
  : CollaborativeState :=
  {| implementation_research_scratchpad :=
       match upd_implementation_research_scratchpad u with
       | Some new => add_messages (implementation_research_scratchpad s) new
       | None => implementation_research_scratchpad s
       end;
     research_summary := overwrite (research_summary s) (upd_research_summary u);
     implementation_plan :=
       overwrite (implementation_plan s) (upd_implementation_plan u);
     collaboration_plan :=
       overwrite (collaboration_plan s) (upd_collaboration_plan u);
     sql_analysis_result :=
       overwrite (sql_analysis_result s) (upd_sql_analysis_result u);
     sql_queries := overwrite (sql_queries s) (upd_sql_queries u);
     database_schema := overwrite (database_schema s) (upd_database_schema u) |}.
End Merge.

(* ================================================================== *)
(** * The agents' interfaces *)
(* ================================================================== *)

(** Modelled from the spec: what the architect agent of
    [agent/architect/graph.py] returns, a mapping in which the keys
    [research_summary] (a text) and [implementation_plan] (a mapping)
    may each be missing. *)
Record ArchitectOutput : Type := mkArchitectOutput {
  out_research_summary : option text;
  out_implementation_plan : option dict
}.

(** The input [{"requirements": ..., "schema_information": ...}] of the
    SQL agent. *)
Record SqlInput : Type := mkSqlInput {
  requirements : text;
  schema_information : text
}.

(** Modelled from the spec: what the SQL agent of
    [agent/analyst/graph.py] returns, a mapping whose key
    [sql_analysis_result] is missing, [None] or a result; [.get] reads
    the first two alike. *)
Record SqlOutput : Type := mkSqlOutput {
  out_sql_analysis_result : option SQLAnalysisResult
}.

(** The input of the developer agent. *)
Record DeveloperInput : Type := mkDeveloperInput {
  dev_scratchpad : list BaseMessage;
  dev_implementation_plan : dict
}.

(* ================================================================== *)
(** * Loading the configuration ([config/__init__.py]) *)
(* ================================================================== *)

(** [d[key] = v], also [setattr] on an object's attribute dictionary:
    an existing key keeps its place and gets the new value, a new key
    goes to the end. *)
Fixpoint dict_set (d : dict) (key : text) (v : value) : dict :=
  match d with
  | [] => [(key, v)]
  | (k, x) :: d' =>
      if text_eqb k key then (k, v) :: d' else (k, x) :: dict_set d' key v
  end.

(** [dict(pairs)] and a dictionary comprehension: the pairs are set one
    after the other. *)
Definition dict_of_pairs (pairs : list (text * value)) : dict :=
  fold_left (fun d kv => dict_set d (fst kv) (snd kv)) pairs [].

(** [s in [a, b, ...]] for strings. *)
Definition str_in_list (s : text) (items : list text) : bool :=
  existsb (fun item => text_eqb s item) items.

(** An object as [dir] and [getattr] show it: its attribute names,
    sorted, each with its value. *)
Definition pyobject := list (text * value).

(** One of the configurations given to [GenericConf]: a dictionary or
    an object. *)
Inductive config : Type :=
| ConfDict (d : dict)
| ConfObject (obj : pyobject).

(** The result of code that may raise [ValueError]. *)
Inductive converted (A : Type) : Type :=
| Returns (a : A)
| RaisesValueError.

Arguments Returns {A} a.
Arguments RaisesValueError {A}.

Definition is_ascii_digit (c : N) : bool := (48 <=? c)%N && (c <=? 57)%N.

(** [c] is an ASCII capital letter. *)
Definition is_ascii_upper (c : N) : bool := (65 <=? c)%N && (c <=? 90)%N.

(** The three names that [setattr] on an instance of a plain class does
    not store in the instance dictionary. *)
Definition is_special_name (name : text) : bool :=
  str_in_list name [lit "__class__"; lit "__dict__"; lit "__weakref__"].

(** [def convert_class_to_json(obj)]. *)
Definition convert_class_to_json (obj : pyobject) : dict :=
  dict_of_pairs (filter (fun kv => negb (startswith (lit "__") (fst kv))) obj).

Section Config.
(** From outside the module: the Unicode tables behind [str.lower] and
    [str.isdigit] above ASCII, [int] on a string that [isdigit]
    accepts ([None] when it raises [ValueError]), and
    [get_credentials] of [src/utils/credentials.py] ([None] when it
    raises). *)
Variable unicode_lower : text -> N -> text -> text.
Variable unicode_isdigit : N -> bool.
Variable py_int : text -> option Z.
Variable get_credentials : value -> option config.

(** [s.isdigit()]: at least one character and all of them digits. *)
Definition isdigit (s : text) : bool :=
  nonempty s &&
  forallb (fun c => if is_ascii c then is_ascii_digit c else unicode_isdigit c) s.

(** [def convert_str_to_org_type(env_variable)]. *)
Definition convert_str_to_org_type (env_variable : text) : converted value :=
  if isdigit env_variable then
    match py_int env_variable with
    | Some z => Returns (VInt z)
    | None => RaisesValueError
    end
  else if str_in_list env_variable [lit "True"; lit "true"; lit "False"; lit "false"] then
    Returns (VBool (str_in_list env_variable [lit "True"; lit "true"]))
  else Returns (VStr env_variable).

(** [class GenericConf]: the attributes of the instance after
    [__init__(confs_list)], for names that [setattr] stores in the
    instance dictionary.  That is every name but [__class__],
    [__dict__] and [__weakref__], for which [setattr] raises or
    replaces the dictionary; the theorems take configurations free of
    these three ([settable]). *)
Definition GenericConf (confs_list : list config) : dict :=
  fold_left
    (fun self config =>
       let props_dct :=
         match config with
         | ConfDict d => d
         | ConfObject obj => convert_class_to_json obj
         end in
       fold_left (fun self kv => dict_set self (fst kv) (snd kv)) props_dct self)
    confs_list [].

(** One pair of the generator of lines 46-47. *)
Definition os_env_pair (kv : text * text) : converted (text * value) :=
  let '(k, v) := kv in
  if negb (isdigit v)
     && negb (str_in_list v [lit "True"; lit "true"; lit "False"; lit "false"])
  then Returns (lower unicode_lower k, VStr v)
  else
    match convert_str_to_org_type v with
    | Returns x => Returns (lower unicode_lower k, x)
    | RaisesValueError => RaisesValueError
    end.

Fixpoint os_env_pairs (environ : list (text * text)) : converted (list (text * value)) :=
  match environ with
  | [] => Returns []
  | kv :: rest =>
      match os_env_pair kv with
      | RaisesValueError => RaisesValueError
      | Returns p =>
          match os_env_pairs rest with
          | RaisesValueError => RaisesValueError
          | Returns ps => Returns (p :: ps)
          end
      end
  end.

(** [os_env], lines 46-47, from the items of [os.environ]. *)
Definition os_env (environ : list (text * text)) : converted dict :=
  match os_env_pairs environ with
  | Returns pairs => Returns (dict_of_pairs pairs)
  | RaisesValueError => RaisesValueError
  end.

(** [os.environ.get(name)]. *)
Fixpoint environ_get (environ : list (text * text)) (name : text) : option text :=
  match environ with
  | [] => None
  | (k, v) :: rest => if text_eqb k name then Some v else environ_get rest name
  end.

(** Lines 44-61: [cfg], from the environment and the two configuration
    objects.  [os_env] is built before the [try]; inside it every
    exception leads to the local configuration.  As for [GenericConf],
    this is the load for names that [setattr] stores. *)
Definition load_cfg (environ : list (text * text)) (shared_config env_conf : pyobject)
  : converted dict :=
  match os_env environ with
  | RaisesValueError => RaisesValueError
  | Returns os_env =>
      let local :=
        GenericConf [ConfObject shared_config; ConfObject env_conf; ConfDict os_env] in
      Returns
        (match environ_get environ (lit "TOKEN") with
         | Some (_ :: _) =>
             match dict_get env_conf (lit "vault_config_key") with
             | Some vault_config_key =>
                 match get_credentials vault_config_key with
                 | Some global_config =>
                     GenericConf [global_config; ConfObject shared_config;
                                  ConfObject env_conf; ConfDict os_env]
                 | None => local
                 end
             | None => local
             end
         | _ => local
         end)
  end.
End Config.

(** The dictionary a configuration contributes. *)
Definition props_of (c : config) : dict :=
  match c with
  | ConfDict d => d
  | ConfObject obj => convert_class_to_json obj
  end.

(** A dictionary has each key once. *)
Definition well_formed (c : config) : Prop :=
  match c with
  | ConfDict d => NoDup (map fst d)
  | ConfObject _ => True
  end.

(** A configuration all of whose names [setattr] stores.  An object
    always is one: [convert_class_to_json] drops the names that begin
    with two underscores. *)
Definition settable (c : config) : Prop :=
  match c with
  | ConfDict d => forall name, In name (map fst d) -> is_special_name name = false
  | ConfObject _ => True
  end.

(** One configuration on top of the attributes set so far. *)
Definition set_all (self : dict) (c : config) : dict :=
  fold_left (fun self kv => dict_set self (fst kv) (snd kv)) (props_of c) self.

(* ================================================================== *)
(** * Sample agents and states *)
(* ================================================================== *)

(** Concrete stand-ins for what the workflow takes from outside, used
    to run it on examples. *)

(** A lower-casing table that leaves every code point above ASCII as it
    is. *)
Definition keep_above_ascii : text -> N -> text -> text :=
  fun _ c _ => [c].

(** A plain rendering of values: strings in single quotes without
    escapes, integers in decimal, a float by a fixed tag. *)
Fixpoint sample_repr (v : value) : text :=
  match v with
  | VNone => lit "None"
  | VBool b => if b then lit "True" else lit "False"
  | VInt z => lit (DecimalString.NilZero.string_of_int (Z.to_int z))
  | VFloat _ => lit "<float>"
  | VStr s => lit "'" ++ s ++ lit "'"
  | VList xs => lit "[" ++ join (lit ", ") (map sample_repr xs) ++ lit "]"
  | VDict kvs =>
      lit "{"
        ++ join (lit ", ")
             (map (fun kv => let '(k, x) := kv in
                             lit "'" ++ k ++ lit "': " ++ sample_repr x) kvs)
        ++ lit "}"
  end.

(** Agents that answer every call with a fixed result, and one that
    fails. *)
Definition architect_returning (out : ArchitectOutput)
  : list BaseMessage -> outcome ArchitectOutput :=
  fun _ => Ok out.

Definition architect_failing : list BaseMessage -> outcome ArchitectOutput :=
  fun _ => Raise (AgentError (lit "timeout")).

Definition sql_analyst_returning (out : SqlOutput) : SqlInput -> outcome SqlOutput :=
  fun _ => Ok out.

(** A developer agent that answers with the messages it was given. *)
Definition developer_echo : DeveloperInput -> outcome StateUpdate :=
  fun input =>
    Ok (mkUpdate (Some (dev_scratchpad input)) None None None None None None).

(** A reducer that appends the new messages. *)
Definition append_messages : list BaseMessage -> list BaseMessage -> list BaseMessage :=
  fun old new => old ++ new.

Definition plan_with (task : string) : dict :=
  [ (lit "tasks", VList [ VStr (lit task) ]) ].

(** An architect answer that speaks of data and of software. *)
Definition dashboard_app_output : ArchitectOutput :=
  {| out_research_summary :=
       Some (lit "An analytics dashboard application with a SQL backend");
     out_implementation_plan := Some (plan_with "Build the Dashboard page") |}.

(** An architect answer that speaks of data only. *)
Definition sales_report_output : ArchitectOutput :=
  {| out_research_summary := Some (lit "Monthly sales by region");
     out_implementation_plan := Some (plan_with "Monthly REPORT") |}.

(** An architect answer that speaks of software only. *)
Definition rest_api_output : ArchitectOutput :=
  {| out_research_summary := Some (lit "A REST API for user management");
     out_implementation_plan := Some (plan_with "Implement the endpoints") |}.

(** An architect answer with no keyword and no marker, and an empty
    one. *)
Definition quiet_output : ArchitectOutput :=
  {| out_research_summary := Some (lit "Nothing to do");
     out_implementation_plan := Some (plan_with "Wait") |}.

Definition empty_output : ArchitectOutput :=
  {| out_research_summary := None; out_implementation_plan := None |}.

(** An architect answer whose summary alone carries the SQL marker. *)
Definition marker_in_summary_output : ArchitectOutput :=
  {| out_research_summary := Some (lit "Step one [SQL_REQUIRED]");
     out_implementation_plan := Some (plan_with "Wait") |}.

Definition sample_sql_result : SQLAnalysisResult :=
  {| query := lit "SELECT region, SUM(amount) FROM sales GROUP BY region";
     explanation := lit "Totals per region";
     confidence := VInt 1;
     warnings := [] |}.

Definition sample_sql_result_with_warning : SQLAnalysisResult :=
  {| query := lit "SELECT * FROM sales";
     explanation := lit "All rows";
     confidence := VInt 0;
     warnings := [lit "full table scan"] |}.

Definition sample_sql_result_without_query : SQLAnalysisResult :=
  {| query := [];
     explanation := lit "No query could be written";
     confidence := VInt 0;
     warnings := [] |}.

Definition request_state : CollaborativeState :=
  initial_state [ HumanMessage (lit "Build a dashboard showing monthly sales") ].

Definition empty_state : CollaborativeState := initial_state [].

(** A state as it is after the architect and the SQL analyst have run
    on the collaborative path. *)
Definition collaborative_state : CollaborativeState :=
  {| implementation_research_scratchpad :=
       [ HumanMessage (lit "Build an analytics dashboard application") ];
     research_summary := lit "An analytics dashboard application";
     implementation_plan := plan_with "Build the Dashboard page";
     collaboration_plan := [ (lit "strategy", VStr (lit "collaborative")) ];
     sql_analysis_result := Some sample_sql_result;
     sql_queries := [ query sample_sql_result ];
     database_schema := [] |}.

(** The same with a SQL result that carries a warning. *)
Definition warned_state : CollaborativeState :=
  {| implementation_research_scratchpad :=
       [ HumanMessage (lit "Build an analytics dashboard application") ];
     research_summary := lit "An analytics dashboard application";
     implementation_plan := plan_with "Build the Dashboard page";
     collaboration_plan := [ (lit "strategy", VStr (lit "collaborative")) ];
     sql_analysis_result := Some sample_sql_result_with_warning;
     sql_queries := [ query sample_sql_result_with_warning ];
     database_schema := [] |}.

Definition state_with_strategy (strategy : value) : CollaborativeState :=
  {| implementation_research_scratchpad := [];
     research_summary := [];
     implementation_plan := [];
     collaboration_plan := [ (lit "strategy", strategy) ];
     sql_analysis_result := None;
     sql_queries := [];
     database_schema := [] |}.

(** A scratchpad with an earlier message before the request. *)
Definition two_message_state : CollaborativeState :=
  initial_state [ AIMessage (lit "How can I help?");
                  HumanMessage (lit "Build a dashboard showing monthly sales") ].

(** A state with a plan and a collaboration plan that names no
    strategy. *)
Definition state_without_strategy : CollaborativeState :=
  {| implementation_research_scratchpad := [ HumanMessage (lit "Go on") ];
     research_summary := [];
     implementation_plan := plan_with "Build the page";
     collaboration_plan := [];
     sql_analysis_result := None;
     sql_queries := [];
     database_schema := [] |}.

(** ** For the configuration *)

(** Configuration objects in the manner of [config/shared.py] and
    [config/development.py], with two of the names [dir] adds. *)
Definition sample_shared_config : pyobject :=
  [ (lit "DEBUG", VBool true);
    (lit "DOMAIN", VStr (lit "usage_ai"));
    (lit "MAX_RETRIES", VInt 2);
    (lit "MCP_SERVER", VStr (lit "http://localhost:8080"));
    (lit "MODEL_NAME", VStr (lit "gpt-4o"));
    (lit "STUDIO_ENABLED", VBool false);
    (lit "TIMEOUT", VInt 50);
    (lit "__doc__", VNone);
    (lit "__module__", VStr (lit "config.shared"));
    (lit "vault_config_key", VStr (lit "secret/bdnd/bedrock_agent")) ].

Definition sample_env_conf : pyobject :=
  [ (lit "DOMAIN", VStr (lit "usage_ai"));
    (lit "MAX_RETRIES", VInt 2);
    (lit "MCP_SERVER", VStr (lit "http://staging:8080"));
    (lit "MODEL_NAME", VStr (lit "gpt-4o"));
    (lit "STUDIO_ENABLED", VBool false);
    (lit "TIMEOUT", VInt 50);
    (lit "__doc__", VNone);
    (lit "__module__", VStr (lit "config.development"));
    (lit "vault_config_key", VStr (lit "secret/bdnd/bedrock_agent")) ].

(** An environment with a token, and what [os_env] makes of it. *)
Definition sample_environ : list (text * text) :=
  [ (lit "HOME", lit "/root");
    (lit "Timeout", lit "90");
    (lit "TIMEOUT", lit "75");
    (lit "STUDIO_ENABLED", lit "true");
    (lit "TOKEN", lit "s3cr3t") ].

Definition sample_os_env : dict :=
  [ (lit "home", VStr (lit "/root"));
    (lit "timeout", VInt 75);
    (lit "studio_enabled", VBool true);
    (lit "token", VStr (lit "s3cr3t")) ].


(** An environment with a level written as a superscript two. *)
Definition sample_environ_with_superscript : list (text * text) :=
  [ (lit "HOME", lit "/root"); (lit "LEVEL", [178%N]); (lit "TOKEN", lit "s3cr3t") ].

(** Above ASCII, the superscript two (code point 178) is the one digit
    of the sample table; [int] reads ASCII digits and rejects it. *)
Definition sample_isdigit : N -> bool := fun c => N.eqb c 178.

Fixpoint ascii_digits_value (acc : Z) (s : text) : option Z :=
  match s with
  | [] => Some acc
  | c :: rest =>
      if is_ascii_digit c then ascii_digits_value (10 * acc + Z.of_N (c - 48)) rest
      else None
  end.

Definition sample_int (s : text) : option Z :=
  match s with
  | [] => None
  | _ :: _ => ascii_digits_value 0 s
  end.

(** A vault that answers, and one that fails. *)
Definition sample_vault_config : config :=
  ConfDict [ (lit "MODEL_NAME", VStr (lit "vault-model"));
             (lit "api_key", VStr (lit "k-123")) ].

Definition vault_returning (c : config) : value -> option config := fun _ => Some c.


(* ================================================================== *)
(** * The steps and the routers *)
(* ================================================================== *)

Section Workflow.
(** The Unicode lower-casing table above ASCII and Python's [repr],
    neither of which the workflow defines. *)
Variable unicode_lower : text -> N -> text -> text.
Variable repr : value -> text.

(** The three agents: each call returns a result or raises. *)
Variable swe_architect : list BaseMessage -> outcome ArchitectOutput.
Variable sql_analyst : SqlInput -> outcome SqlOutput.
Variable swe_developer : DeveloperInput -> outcome StateUpdate.

(** [str(v)], also what an f-string field shows: a string is shown
    as it is, every other value by its [repr]. *)
Definition py_str (v : value) : text :=
  match v with
  | VStr s => s
  | _ => repr v
  end.

(** ** [enhanced_architect] *)

(** The f-string of lines 37-56. *)
Definition enhanced_prompt (original_content : text) : text :=
  join nl
    [ [];
      lit "    " ++ original_content;
      lit "    ";
      lit "    COLLABORATION ANALYSIS INSTRUCTIONS:";
      lit "    Please analyze this request and determine what type of work is needed:";
      lit "    ";
      lit "    1. If SQL/database analysis is needed, mark tasks with [SQL_REQUIRED]";
      lit "    2. If software development is needed, mark tasks with [CODE_REQUIRED]  ";
      lit "    3. If both are needed, plan how they should work together";
      lit "    ";
      lit "    Consider these indicators:";
      lit "    - SQL needed: dashboards, analytics, reports, data visualization, database queries, KPIs, metrics";
      lit "    - Code needed: applications, APIs, web development, implementation, software features";
      lit "    - Both needed: data-driven applications, analytics dashboards, reporting systems";
      lit "    ";
      lit "    Create a clear implementation plan that shows:";
      lit "    - What data analysis/SQL work is needed (if any)";
      lit "    - What software development work is needed (if any)  ";
      lit "    - How they should collaborate (if both are needed)";
      lit "    " ].

Definition sql_keywords : list text :=
  [ lit "sql"; lit "query"; lit "database"; lit "data analysis";
    lit "analytics"; lit "dashboard"; lit "report" ].

Definition code_keywords : list text :=
  [ lit "implement"; lit "develop"; lit "code"; lit "application";
    lit "api"; lit "web"; lit "software" ].

(** Lines 69-72. *)
Definition needs_sql (plan_text research_text : text) : bool :=
  str_in (lit "[SQL_REQUIRED]") plan_text ||
  existsb
    (fun keyword => str_in keyword (lower unicode_lower (plan_text ++ research_text)))
    sql_keywords.

(** Lines 74-77. *)
Definition needs_code (plan_text research_text : text) : bool :=
  str_in (lit "[CODE_REQUIRED]") plan_text ||
  existsb
    (fun keyword => str_in keyword (lower unicode_lower (plan_text ++ research_text)))
    code_keywords.

(** Lines 80-103: the [collaboration_plan] dictionary. *)
Definition decide_collaboration (needs_sql needs_code : bool) : dict :=
  if needs_sql && needs_code then
    [ (lit "strategy", VStr (lit "collaborative"));
      (lit "steps",
       VList
         [ VStr (lit "1. SQL Analyst: Analyze data requirements and create optimized queries");
           VStr (lit "2. Pass SQL results to Developer");
           VStr (lit "3. Developer: Implement application using SQL queries") ]) ]
  else if needs_sql then
    [ (lit "strategy", VStr (lit "sql_only"));
      (lit "steps", VList [ VStr (lit "1. SQL Analyst: Complete data analysis") ]) ]
  else if needs_code then
    [ (lit "strategy", VStr (lit "code_only"));
      (lit "steps", VList [ VStr (lit "1. Developer: Implement software solution") ]) ]
  else
    [ (lit "strategy", VStr (lit "code_only"));
      (lit "steps", VList [ VStr (lit "1. Developer: Implement basic solution") ]) ].

(** [result.get('implementation_plan', '')] and
    [result.get('research_summary', '')] as values. *)
Definition plan_or_empty_str (result : ArchitectOutput) : value :=
  match out_implementation_plan result with
  | Some p => VDict p
  | None => VStr []
  end.

Definition summary_or_empty_str (result : ArchitectOutput) : value :=
  match out_research_summary result with
  | Some t => VStr t
  | None => VStr []
  end.

Definition enhanced_architect (state : CollaborativeState) : outcome StateUpdate :=
  original_content <-
    (if nonempty (implementation_research_scratchpad state) then
       m <- index_last (implementation_research_scratchpad state) ;; Ok (content m)
     else Ok (lit "No specific requirements provided")) ;;
  let enhanced_message := HumanMessage (enhanced_prompt original_content) in
  let enhanced_state := [enhanced_message] in
  result <- swe_architect enhanced_state ;;
  let plan_text := py_str (plan_or_empty_str result) in
  let research_text := py_str (summary_or_empty_str result) in
  let collaboration_plan :=
    decide_collaboration (needs_sql plan_text research_text)
                         (needs_code plan_text research_text) in
  Ok {| upd_implementation_research_scratchpad := None;
        upd_research_summary :=
          Some (match out_research_summary result with Some t => t | None => [] end);
        upd_implementation_plan :=
          Some (match out_implementation_plan result with Some p => p | None => [] end);
        upd_collaboration_plan := Some collaboration_plan;
        upd_sql_analysis_result := None;
        upd_sql_queries := None;
        upd_database_schema := None |}.

(** ** [route_after_architect] *)

Definition route_after_architect (state : CollaborativeState) : text :=
  let strategy :=
    dict_get_default (collaboration_plan state) (lit "strategy")
                     (VStr (lit "code_only")) in
  if eq_str strategy (lit "collaborative") then lit "sql_analyst"
  else if eq_str strategy (lit "sql_only") then lit "sql_analyst"
  else lit "developer".

(** ** [sql_analyst_step] *)

(** The f-string of lines 130-139. *)
Definition sql_requirements_text (original_request research_text plan_text : text)
  : text :=
  join nl
    [ [];
      lit "    Original Request: " ++ original_request;
      lit "    ";
      lit "    Architect's Analysis: " ++ research_text;
      lit "    ";
      lit "    Implementation Plan Context: " ++ plan_text;
      lit "    ";
      lit "    Please create optimized SQL queries and analysis for this project.";
      lit "    Focus on data extraction, performance, and how the results will be used.";
      lit "    " ].

Definition sql_analyst_step (state : CollaborativeState) : outcome StateUpdate :=
  let plan_text := py_str (VDict (implementation_plan state)) in
  let research_text := research_summary state in
  original_request <-
    (if nonempty (implementation_research_scratchpad state) then
       m <- index_last (implementation_research_scratchpad state) ;; Ok (content m)
     else Ok []) ;;
  let sql_requirements :=
    sql_requirements_text original_request research_text plan_text in
  let sql_input :=
    {| requirements := sql_requirements;
       schema_information :=
         if nonempty (database_schema state) then database_schema state
         else lit "Schema not provided - create optimal generic queries" |} in
  result <- sql_analyst sql_input ;;
  let sql_result := out_sql_analysis_result result in
  let queries :=
    match sql_result with
    | Some r => if nonempty (query r) then [query r] else []
    | None => []
    end in
  Ok {| upd_implementation_research_scratchpad := None;
        upd_research_summary := None;
        upd_implementation_plan := None;
        upd_collaboration_plan := None;
        upd_sql_analysis_result := Some sql_result;
        upd_sql_queries := Some queries;
        upd_database_schema := None |}.

(** ** [route_after_sql] *)

Definition route_after_sql (state : CollaborativeState) : text :=
  let strategy :=
    dict_get_default (collaboration_plan state) (lit "strategy")
                     (VStr (lit "code_only")) in
  if eq_str strategy (lit "collaborative") then lit "developer"
  else lit "end".

(** ** [developer_step] *)

(** [warnings if warnings else 'None'], as the f-string shows it. *)
Definition warnings_display (ws : list text) : text :=
  if nonempty ws then py_str (VList (map VStr ws)) else py_str (VStr (lit "None")).

(** The f-string of lines 174-190. *)
Definition sql_context (r : SQLAnalysisResult) : text :=
  join nl
    [ [];
      lit "        SQL ANALYSIS RESULTS:";
      lit "        ";
      lit "        Query: " ++ py_str (VStr (query r));
      lit "        ";
      lit "        Explanation: " ++ py_str (VStr (explanation r));
      lit "        ";
      lit "        Confidence: " ++ py_str (confidence r);
      lit "        ";
      lit "        Warnings: " ++ warnings_display (warnings r);
      lit "        ";
      lit "        INTEGRATION INSTRUCTIONS:";
      lit "        - Use the above SQL query in your implementation";
      lit "        - Consider the data structure returned by this query  ";
      lit "        - Implement proper error handling for database operations";
      lit "        - Add data validation and transformation as needed";
      lit "        " ].

(** The f-string of lines 196-201. *)
Definition plan_context (state : CollaborativeState) : text :=
  join nl
    [ [];
      lit "        ARCHITECT'S IMPLEMENTATION PLAN:";
      lit "        " ++ py_str (VStr (py_str (VDict (implementation_plan state))));
      lit "        ";
      lit "        COLLABORATION STRATEGY: "
        ++ py_str (dict_get_default (collaboration_plan state) (lit "strategy")
                                    (VStr (lit "unknown")));
      lit "        " ].

(** Lines 172-192: the messages the SQL result adds. *)
Definition sql_context_messages (state : CollaborativeState) : list BaseMessage :=
  match sql_analysis_result state with
  | Some r => [AIMessage (sql_context r)]
  | None => []
  end.

(** Lines 194-202: the messages the plan adds. *)
Definition plan_context_messages (state : CollaborativeState) : list BaseMessage :=
  if nonempty (implementation_plan state) then [AIMessage (plan_context state)]
  else [].

(** The list [developer_messages] when the agent is called: a copy of
    the scratchpad with the appended messages. *)
Definition developer_messages (state : CollaborativeState) : list BaseMessage :=
  let developer_messages := implementation_research_scratchpad state in
  let developer_messages := developer_messages ++ sql_context_messages state in
  let developer_messages := developer_messages ++ plan_context_messages state in
  developer_messages.

Definition developer_step (state : CollaborativeState) : outcome StateUpdate :=
  let developer_input :=
    {| dev_scratchpad := developer_messages state;
       dev_implementation_plan := implementation_plan state |} in
  result <- swe_developer developer_input ;;
  Ok result.

(** ** The graph *)

Variable add_messages : list BaseMessage -> list BaseMessage -> list BaseMessage.

(** Running a node: its return value is merged into the state. *)
Definition run_node (step : CollaborativeState -> outcome StateUpdate)
    (state : CollaborativeState) : outcome CollaborativeState :=
  u <- step state ;;
  Ok (apply_update add_messages state u).

(** The compiled graph of lines 215-249; the result is the list of the
    nodes that ran and the final state.  The runtime's check of the
    state against the declared field types between two nodes is not
    part of it; with the typed agents here it could only turn on a SQL
    answer without result, which the step writes back as [None] into
    a field declared as a [SQLAnalysisResult]. *)
Definition swe_agent (state : CollaborativeState)
  : outcome (list text * CollaborativeState) :=
  s1 <- run_node enhanced_architect state ;;
  if text_eqb (route_after_architect s1) (lit "sql_analyst") then
    s2 <- run_node sql_analyst_step s1 ;;
    if text_eqb (route_after_sql s2) (lit "developer") then
      s3 <- run_node developer_step s2 ;;
      Ok ([lit "architect"; lit "sql_analyst"; lit "developer"], s3)
    else
      Ok ([lit "architect"; lit "sql_analyst"], s2)
  else
    s3 <- run_node developer_step s1 ;;
    Ok ([lit "architect"; lit "developer"], s3).

(** ** Names for what the statements speak about *)

(** The content of the last message, or [dflt] when there is none. *)
Definition last_content (dflt : text) (ms : list BaseMessage) : text :=
  match rev ms with
  | m :: _ => content m
  | [] => dflt
  end.

(** The scratchpad the architect agent is called with. *)
Definition architect_input (state : CollaborativeState) : list BaseMessage :=
  [ HumanMessage
      (enhanced_prompt
         (last_content (lit "No specific requirements provided")
                       (implementation_research_scratchpad state))) ].

(** The input the SQL agent is called with. *)
Definition sql_input_of (state : CollaborativeState) : SqlInput :=
  {| requirements :=
       sql_requirements_text
         (last_content [] (implementation_research_scratchpad state))
         (research_summary state)
         (py_str (VDict (implementation_plan state)));
     schema_information :=
       if nonempty (database_schema state) then database_schema state
       else lit "Schema not provided - create optimal generic queries" |}.

(** The state with its SQL result taken away. *)
Definition without_sql_result (state : CollaborativeState) : CollaborativeState :=
  {| implementation_research_scratchpad := implementation_research_scratchpad state;
     research_summary := research_summary state;
     implementation_plan := implementation_plan state;
     collaboration_plan := collaboration_plan state;
     sql_analysis_result := None;
     sql_queries := sql_queries state;
     database_schema := database_schema state |}.

(** The state with another collaboration plan. *)
Definition with_collaboration_plan (state : CollaborativeState) (plan : dict)
  : CollaborativeState :=
  {| implementation_research_scratchpad := implementation_research_scratchpad state;
     research_summary := research_summary state;
     implementation_plan := implementation_plan state;
     collaboration_plan := plan;
     sql_analysis_result := sql_analysis_result state;
     sql_queries := sql_queries state;
     database_schema := database_schema state |}.

(** [l] is a whole line of [s], with a line before and after it. *)
Definition has_line (l s : text) : Prop := occurs (nl ++ l ++ nl) s.

(** What the update of the architect step holds, given what the
    agent returned. *)
Definition architect_update_of (result : ArchitectOutput) (u : StateUpdate) : Prop :=
  upd_implementation_research_scratchpad u = None /\
  upd_research_summary u =
    Some (match out_research_summary result with Some t => t | None => [] end) /\
  upd_implementation_plan u =
    Some (match out_implementation_plan result with Some p => p | None => [] end) /\
  upd_collaboration_plan u =
    Some (decide_collaboration
            (needs_sql (py_str (plan_or_empty_str result))
                       (py_str (summary_or_empty_str result)))
            (needs_code (py_str (plan_or_empty_str result))
                        (py_str (summary_or_empty_str result)))) /\
  upd_sql_analysis_result u = None /\
  upd_sql_queries u = None /\
  upd_database_schema u = None.

(** [[sql_result.query] if sql_result and sql_result.query else []]. *)
Definition extracted_queries (sql_result : option SQLAnalysisResult) : list text :=
  match sql_result with
  | Some r => if nonempty (query r) then [query r] else []
  | None => []
  end.

(** What the update of the SQL-analyst step holds, given what the
    agent returned. *)
Definition sql_update_of (result : SqlOutput) (u : StateUpdate) : Prop :=
  upd_implementation_research_scratchpad u = None /\
  upd_research_summary u = None /\
  upd_implementation_plan u = None /\
  upd_collaboration_plan u = None /\
  upd_sql_analysis_result u = Some (out_sql_analysis_result result) /\
  upd_sql_queries u = Some (extracted_queries (out_sql_analysis_result result)) /\
  upd_database_schema u = None.

(** The strategy a collaboration plan names, when it names one. *)
Definition strategy_of (state : CollaborativeState) : option value :=
  dict_get (collaboration_plan state) (lit "strategy").

(** ** Names for the whole workflow *)

(** The two flags of lines 69-77, computed from what the architect
    agent returned. *)
Definition sql_flag (result : ArchitectOutput) : bool :=
  needs_sql (py_str (plan_or_empty_str result)) (py_str (summary_or_empty_str result)).

Definition code_flag (result : ArchitectOutput) : bool :=
  needs_code (py_str (plan_or_empty_str result)) (py_str (summary_or_empty_str result)).

(** The state with another scratchpad. *)
Definition with_scratchpad (state : CollaborativeState) (ms : list BaseMessage)
  : CollaborativeState :=
  {| implementation_research_scratchpad := ms;
     research_summary := research_summary state;
     implementation_plan := implementation_plan state;
     collaboration_plan := collaboration_plan state;
     sql_analysis_result := sql_analysis_result state;
     sql_queries := sql_queries state;
     database_schema := database_schema state |}.

(** The state after the architect node, when the agent returned
    [result]. *)
Definition after_architect (state : CollaborativeState) (result : ArchitectOutput)
  : CollaborativeState :=
  {| implementation_research_scratchpad := implementation_research_scratchpad state;
     research_summary :=
       match out_research_summary result with Some t => t | None => [] end;
     implementation_plan :=
       match out_implementation_plan result with Some p => p | None => [] end;
     collaboration_plan := decide_collaboration (sql_flag result) (code_flag result);
     sql_analysis_result := sql_analysis_result state;
     sql_queries := sql_queries state;
     database_schema := database_schema state |}.

(** The state after the SQL-analyst node, when the agent returned
    [out]. *)
Definition after_sql (state : CollaborativeState) (out : SqlOutput)
  : CollaborativeState :=
  {| implementation_research_scratchpad := implementation_research_scratchpad state;
     research_summary := research_summary state;
     implementation_plan := implementation_plan state;
     collaboration_plan := collaboration_plan state;
     sql_analysis_result := out_sql_analysis_result out;
     sql_queries := extracted_queries (out_sql_analysis_result out);
     database_schema := database_schema state |}.

(** The input the developer agent is called with. *)
Definition developer_input_for (state : CollaborativeState) : DeveloperInput :=
  {| dev_scratchpad := developer_messages state;
     dev_implementation_plan := implementation_plan state |}.

(** The nodes that run, by the two flags. *)
Definition path_for (needs_sql needs_code : bool) : list text :=
  if needs_sql then
    if needs_code then [lit "architect"; lit "sql_analyst"; lit "developer"]
    else [lit "architect"; lit "sql_analyst"]
  else [lit "architect"; lit "developer"].

(* ================================================================ *)
(** * Facts about text *)
(* ================================================================ *)

Lemma text_eqb_eq (a b : text) : text_eqb a b = true <-> a = b.
Proof.
  revert b; induction a as [|x a IH]; intros [|y b]; simpl;
    try (split; [discriminate | discriminate]); try tauto.
  rewrite andb_true_iff, N.eqb_eq, IH.
  split; [intros [-> ->]; reflexivity | intros H; inversion H; auto].
Qed.

Lemma startswith_spec (needle s : text) :
  startswith needle s = true <-> exists post, s = needle ++ post.
Proof.
  revert s; induction needle as [|x needle IH]; intros s; simpl.
  - split; [intros _; exists s; reflexivity | reflexivity].
  - destruct s as [|y s].
    + split; [discriminate | intros [post H]; discriminate].
    + rewrite andb_true_iff, N.eqb_eq, IH. split.
      * intros [-> [post ->]]. exists post. reflexivity.
      * intros [post H]. inversion H. split; [reflexivity | exists post; reflexivity].
Qed.

Lemma str_in_spec (needle s : text) : str_in needle s = true <-> occurs needle s.
Proof.
  unfold occurs. induction s as [|y s IH].
  - simpl. rewrite orb_false_r, startswith_spec. split.
    + intros [post H]. exists [], post. exact H.
    + intros [pre [post H]]. destruct pre as [|p pre]; [|discriminate].
      exists post. exact H.
  - simpl. rewrite orb_true_iff, startswith_spec, IH. split.
    + intros [[post H] | [pre [post H]]].
      * exists [], post. exact H.
      * exists (y :: pre), post. rewrite H. reflexivity.
    + intros [pre [post H]]. destruct pre as [|p pre].
      * left. exists post. exact H.
      * right. inversion H. exists pre, post. reflexivity.
Qed.

Lemma occurs_trans (a b c : text) : occurs a b -> occurs b c -> occurs a c.
Proof.
  intros [p1 [q1 H1]] [p2 [q2 H2]]. exists (p2 ++ p1), (q1 ++ q2).
  rewrite H2, H1. rewrite <- !app_assoc. reflexivity.
Qed.

(** An ASCII word is lower-cased in place, whatever surrounds it. *)
Lemma lower_from_ascii_prefix (w : text) :
  forallb is_ascii w = true ->
  forall pre b,
    lower_from unicode_lower pre (w ++ b) =
    map ascii_lower w ++ lower_from unicode_lower (pre ++ w) b.
Proof.
  induction w as [|c w IH]; intros Hw pre b; simpl.
  - rewrite app_nil_r. reflexivity.
  - simpl in Hw. apply andb_true_iff in Hw. destruct Hw as [Hc Hw].
    unfold lower_cp at 1. rewrite Hc. simpl.
    rewrite (IH Hw). rewrite <- app_assoc. reflexivity.
Qed.

Lemma occurs_lower_from (w : text) :
  forallb is_ascii w = true ->
  forall a pre b,
    occurs (map ascii_lower w) (lower_from unicode_lower pre (a ++ w ++ b)).
Proof.
  intros Hw. induction a as [|c a IH]; intros pre b.
  - simpl. rewrite (lower_from_ascii_prefix w Hw).
    exists [], (lower_from unicode_lower (pre ++ w) b). reflexivity.
  - simpl. destruct (IH (pre ++ [c]) b) as [x [y H]].
    exists (lower_cp unicode_lower pre c (a ++ w ++ b) ++ x), y.
    rewrite H, <- app_assoc. reflexivity.
Qed.

Lemma occurs_lower (w s : text) :
  forallb is_ascii w = true ->
  occurs w s ->
  occurs (map ascii_lower w) (lower unicode_lower s).
Proof.
  intros Hw [a [b ->]]. apply occurs_lower_from. exact Hw.
Qed.

Lemma occurs_app_r (w a b : text) : occurs w b -> occurs w (a ++ b).
Proof.
  intros [x [y ->]]. exists (a ++ x), y. rewrite <- app_assoc. reflexivity.
Qed.

Lemma existsb_keyword (kws : list text) (s k : text) :
  In k kws -> occurs k s -> existsb (fun keyword => str_in keyword s) kws = true.
Proof.
  intros Hin Hocc. apply existsb_exists. exists k. split; [exact Hin|].
  apply str_in_spec. exact Hocc.
Qed.

Lemma existsb_no_keyword (kws : list text) (s : text) :
  (forall k, In k kws -> ~ occurs k s) ->
  existsb (fun keyword => str_in keyword s) kws = false.
Proof.
  intros H. destruct (existsb _ kws) eqn:E; [|reflexivity].
  apply existsb_exists in E. destruct E as [k [Hin Hk]].
  apply str_in_spec in Hk. destruct (H k Hin Hk).
Qed.

Lemma str_in_false (needle s : text) : ~ occurs needle s -> str_in needle s = false.
Proof.
  intros H. destruct (str_in needle s) eqn:E; [|reflexivity].
  apply str_in_spec in E. destruct (H E).
Qed.

(* ================================================================ *)
(** * The architect step *)
(* ================================================================ *)

Lemma index_last_content (dflt : text) (ms : list BaseMessage) :
  nonempty ms = true ->
  (m <- index_last ms ;; Ok (content m)) = Ok (last_content dflt ms).
Proof.
  intros H. unfold index_last, last_content.
  destruct (rev ms) as [|m r] eqn:E; [|reflexivity].
  apply (f_equal (@rev _)) in E. rewrite rev_involutive in E. subst ms.
  discriminate H.
Qed.

(** The request the architect sees, computed without failure. *)
Lemma architect_request_ok (state : CollaborativeState) :
  (if nonempty (implementation_research_scratchpad state) then
     m <- index_last (implementation_research_scratchpad state) ;; Ok (content m)
   else Ok (lit "No specific requirements provided")) =
  Ok (last_content (lit "No specific requirements provided")
                   (implementation_research_scratchpad state)).
Proof.
  destruct (nonempty (implementation_research_scratchpad state)) eqn:E.
  - apply index_last_content. exact E.
  - destruct (implementation_research_scratchpad state); [reflexivity | discriminate E].
Qed.

(** The strategy named by the dictionary that lines 80-103 build. *)
Lemma decide_collaboration_strategy (s c : bool) :
  dict_get (decide_collaboration s c) (lit "strategy") =
  Some (VStr (if s then (if c then lit "collaborative" else lit "sql_only")
              else lit "code_only")).
Proof. destruct s, c; reflexivity. Qed.

Lemma enhanced_architect_ok (state : CollaborativeState) (result : ArchitectOutput) :
  swe_architect (architect_input state) = Ok result ->
  exists u, enhanced_architect state = Ok u /\ architect_update_of result u.
Proof.
  intros H. unfold enhanced_architect.
  rewrite architect_request_ok. cbn [bind].
  fold (architect_input state). rewrite H. cbn [bind].
  eexists. split; [reflexivity|].
  unfold architect_update_of. cbn. repeat split.
Qed.

Lemma enhanced_architect_raise (state : CollaborativeState) (e : exn) :
  enhanced_architect state = Raise e <-> swe_architect (architect_input state) = Raise e.
Proof.
  unfold enhanced_architect.
  rewrite architect_request_ok. cbn [bind].
  fold (architect_input state).
  destruct (swe_architect (architect_input state)) as [result|e']; cbn [bind].
  - split; discriminate.
  - split; intros H; inversion H; reflexivity.
Qed.

Lemma enhanced_architect_ok_inv (state : CollaborativeState) (u : StateUpdate) :
  enhanced_architect state = Ok u ->
  exists result,
    swe_architect (architect_input state) = Ok result /\ architect_update_of result u.
Proof.
  intros H.
  destruct (swe_architect (architect_input state)) as [result|e] eqn:E.
  - exists result. split; [reflexivity|].
    destruct (enhanced_architect_ok state result E) as [u' [Hu' Hupd]].
    rewrite Hu' in H. inversion H. subst u'. exact Hupd.
  - apply enhanced_architect_raise in E. rewrite E in H. discriminate H.
Qed.

(** C4: when the literal [[SQL_REQUIRED]] occurs in the plan text or in
    the research-summary text, [needs_sql] is true, whatever else the
    two texts hold.  In the plan text the marker is looked for as it
    is; in the summary its lower-cased form contains the keyword
    [sql]. *)
Theorem C4_sql_marker_forces_needs_sql (plan_text research_text : text) :
  occurs (lit "[SQL_REQUIRED]") plan_text \/
  occurs (lit "[SQL_REQUIRED]") research_text ->
  needs_sql plan_text research_text = true.
Proof.
  intros [H | H]; unfold needs_sql.
  - apply str_in_spec in H. rewrite H. reflexivity.
  - apply orb_true_iff. right.
    apply existsb_keyword with (k := lit "sql").
    + left. reflexivity.
    + apply occurs_trans with (b := map ascii_lower (lit "[SQL_REQUIRED]")).
      * apply str_in_spec. reflexivity.
      * apply occurs_lower; [reflexivity|].
        apply occurs_app_r. exact H.
Qed.

(** C1: when the architect agent returns, the step returns an update
    whose collaboration plan names a strategy, and that strategy
    follows the decision table on the two flags computed from the
    returned plan and summary: both give [collaborative], SQL alone
    [sql_only], code alone [code_only], neither [code_only].  In
    particular, texts in which no keyword of either list and no
    marker occurs give [code_only]. *)
Theorem C1_strategy_decision_table
    (state : CollaborativeState) (result : ArchitectOutput) :
  swe_architect (architect_input state) = Ok result ->
  let plan_text := py_str (plan_or_empty_str result) in
  let research_text := py_str (summary_or_empty_str result) in
  let n_sql := needs_sql plan_text research_text in
  let n_code := needs_code plan_text research_text in
  exists u plan strategy,
    enhanced_architect state = Ok u /\
    upd_collaboration_plan u = Some plan /\
    dict_get plan (lit "strategy") = Some (VStr strategy) /\
    (n_sql = true -> n_code = true -> strategy = lit "collaborative") /\
    (n_sql = true -> n_code = false -> strategy = lit "sql_only") /\
    (n_sql = false -> n_code = true -> strategy = lit "code_only") /\
    (n_sql = false -> n_code = false -> strategy = lit "code_only") /\
    ((forall k, In k sql_keywords \/ In k code_keywords ->
                ~ occurs k (lower unicode_lower (plan_text ++ research_text))) ->
     ~ occurs (lit "[SQL_REQUIRED]") plan_text ->
     ~ occurs (lit "[CODE_REQUIRED]") plan_text ->
     strategy = lit "code_only").
Proof.
  intros H plan_text research_text n_sql n_code.
  destruct (enhanced_architect_ok state result H) as [u [Hu Hupd]].
  destruct Hupd as (_ & _ & _ & Hplan & _).
  fold plan_text research_text n_sql n_code in Hplan.
  exists u, (decide_collaboration n_sql n_code),
    (if n_sql then (if n_code then lit "collaborative" else lit "sql_only")
     else lit "code_only").
  split; [exact Hu|]. split; [exact Hplan|].
  split; [apply decide_collaboration_strategy|].
  repeat split.
  - intros -> ->. reflexivity.
  - intros -> ->. reflexivity.
  - intros -> _. reflexivity.
  - intros -> _. reflexivity.
  - intros Hkw Hsql Hcode.
    assert (Hn : n_sql = false).
    { unfold n_sql, needs_sql. rewrite (str_in_false _ _ Hsql), orb_false_l.
      apply existsb_no_keyword. intros k Hk. apply Hkw. left. exact Hk. }
    rewrite Hn. reflexivity.
Qed.

(** C8: merged into the state, the architect step's update leaves the
    scratchpad, the SQL result, the SQL queries and the database
    schema as they were; it names no scratchpad at all, so the
    message built for the agent does not reach the shared
    scratchpad.  What it does set are the research summary, the
    implementation plan and the collaboration plan. *)
Theorem C8_architect_frame (state : CollaborativeState) (u : StateUpdate) :
  enhanced_architect state = Ok u ->
  let state' := apply_update add_messages state u in
  implementation_research_scratchpad state' =
    implementation_research_scratchpad state /\
  sql_analysis_result state' = sql_analysis_result state /\
  sql_queries state' = sql_queries state /\
  database_schema state' = database_schema state /\
  upd_implementation_research_scratchpad u = None /\
  upd_research_summary u = Some (research_summary state') /\
  upd_implementation_plan u = Some (implementation_plan state') /\
  upd_collaboration_plan u = Some (collaboration_plan state').
Proof.
  intros H state'.
  destruct (enhanced_architect_ok_inv state u H) as [result [_ Hupd]].
  destruct Hupd as (H1 & H2 & H3 & H4 & H5 & H6 & H7).
  unfold state', apply_update. cbn.
  rewrite H1, H2, H3, H4, H5, H6, H7. cbn. repeat split.
Qed.

(* ================================================================ *)
(** * The routers *)
(* ================================================================ *)

Lemma eq_str_true (v : value) (s : text) : eq_str v s = true <-> v = VStr s.
Proof.
  destruct v; simpl; try (split; discriminate).
  rewrite text_eqb_eq. split; [intros ->; reflexivity | intros H; inversion H; reflexivity].
Qed.

Lemma eq_str_false (v : value) (s : text) : v <> VStr s -> eq_str v s = false.
Proof.
  intros H. destruct (eq_str v s) eqn:E; [|reflexivity].
  apply eq_str_true in E. destruct (H E).
Qed.

(** The value both routers compare: the named strategy, or
    [code_only] when the plan names none. *)
Lemma strategy_default (state : CollaborativeState) :
  dict_get_default (collaboration_plan state) (lit "strategy") (VStr (lit "code_only")) =
  match strategy_of state with
  | Some v => v
  | None => VStr (lit "code_only")
  end.
Proof. reflexivity. Qed.

(** C2: the router after the architect is a function of the strategy
    of the plan alone.  It sends [collaborative] and [sql_only] to
    [sql_analyst] and everything else, [code_only] and a plan without
    strategy included, to [developer]; its result is always one of
    these two node names, which are different. *)
Theorem C2_route_after_architect_total (state other : CollaborativeState) :
  (strategy_of other = strategy_of state ->
   route_after_architect other = route_after_architect state) /\
  (strategy_of state = Some (VStr (lit "collaborative")) ->
   route_after_architect state = lit "sql_analyst") /\
  (strategy_of state = Some (VStr (lit "sql_only")) ->
   route_after_architect state = lit "sql_analyst") /\
  (strategy_of state <> Some (VStr (lit "collaborative")) ->
   strategy_of state <> Some (VStr (lit "sql_only")) ->
   route_after_architect state = lit "developer") /\
  (strategy_of state = Some (VStr (lit "code_only")) ->
   route_after_architect state = lit "developer") /\
  (strategy_of state = None -> route_after_architect state = lit "developer") /\
  (route_after_architect state = lit "sql_analyst" \/
   route_after_architect state = lit "developer") /\
  lit "sql_analyst" <> lit "developer".
Proof.
  unfold route_after_architect. rewrite !strategy_default.
  repeat split.
  - intros ->. reflexivity.
  - intros ->. reflexivity.
  - intros ->. reflexivity.
  - intros H1 H2. destruct (strategy_of state) as [v|]; [|reflexivity].
    rewrite !eq_str_false; [reflexivity | |]; intros ->; [apply H2 | apply H1]; reflexivity.
  - intros ->. reflexivity.
  - intros ->. reflexivity.
  - destruct (eq_str _ (lit "collaborative")); [left; reflexivity|].
    destruct (eq_str _ (lit "sql_only")); [left | right]; reflexivity.
  - discriminate.
Qed.

(** C3: the router after the SQL analyst is a function of the
    strategy of the plan alone.  It sends [collaborative] to
    [developer] and every other strategy to the end of the workflow;
    for [sql_only] the result is the end signal and not
    [developer]. *)
Theorem C3_route_after_sql (state other : CollaborativeState) :
  (strategy_of other = strategy_of state ->
   route_after_sql other = route_after_sql state) /\
  (strategy_of state = Some (VStr (lit "collaborative")) ->
   route_after_sql state = lit "developer") /\
  (strategy_of state <> Some (VStr (lit "collaborative")) ->
   route_after_sql state = lit "end") /\
  (strategy_of state = Some (VStr (lit "sql_only")) ->
   route_after_sql state = lit "end" /\ route_after_sql state <> lit "developer").
Proof.
  unfold route_after_sql. rewrite !strategy_default.
  split; [|split; [|split]].
  - intros ->. reflexivity.
  - intros ->. reflexivity.
  - intros H. destruct (strategy_of state) as [v|]; [|reflexivity].
    rewrite eq_str_false; [reflexivity|]. intros ->. apply H. reflexivity.
  - intros ->. split; [reflexivity | discriminate].
Qed.

(** C7: two states with the same collaboration plan are routed alike
    by both routers, however their scratchpads and other fields
    differ. *)
Theorem C7_routers_read_only_the_plan (s1 s2 : CollaborativeState) :
  collaboration_plan s1 = collaboration_plan s2 ->
  route_after_architect s1 = route_after_architect s2 /\
  route_after_sql s1 = route_after_sql s2.
Proof.
  intros H. unfold route_after_architect, route_after_sql. rewrite H.
  split; reflexivity.
Qed.

(* ================================================================ *)
(** * The SQL-analyst step *)
(* ================================================================ *)

Lemma sql_request_ok (state : CollaborativeState) :
  (if nonempty (implementation_research_scratchpad state) then
     m <- index_last (implementation_research_scratchpad state) ;; Ok (content m)
   else Ok []) =
  Ok (last_content [] (implementation_research_scratchpad state)).
Proof.
  destruct (nonempty (implementation_research_scratchpad state)) eqn:E.
  - apply index_last_content. exact E.
  - destruct (implementation_research_scratchpad state); [reflexivity | discriminate E].
Qed.

Lemma sql_analyst_step_ok (state : CollaborativeState) (result : SqlOutput) :
  sql_analyst (sql_input_of state) = Ok result ->
  exists u, sql_analyst_step state = Ok u /\ sql_update_of result u.
Proof.
  intros H. unfold sql_analyst_step.
  rewrite sql_request_ok. cbn [bind].
  fold (sql_input_of state). rewrite H. cbn [bind].
  eexists. split; [reflexivity|].
  unfold sql_update_of. cbn. repeat split.
Qed.

Lemma sql_analyst_step_raise (state : CollaborativeState) (e : exn) :
  sql_analyst_step state = Raise e <-> sql_analyst (sql_input_of state) = Raise e.
Proof.
  unfold sql_analyst_step.
  rewrite sql_request_ok. cbn [bind].
  fold (sql_input_of state).
  destruct (sql_analyst (sql_input_of state)) as [result|e']; cbn [bind].
  - split; discriminate.
  - split; intros H; inversion H; reflexivity.
Qed.

Lemma sql_analyst_step_ok_inv (state : CollaborativeState) (u : StateUpdate) :
  sql_analyst_step state = Ok u ->
  exists result,
    sql_analyst (sql_input_of state) = Ok result /\ sql_update_of result u.
Proof.
  intros H.
  destruct (sql_analyst (sql_input_of state)) as [result|e] eqn:E.
  - exists result. split; [reflexivity|].
    destruct (sql_analyst_step_ok state result E) as [u' [Hu' Hupd]].
    rewrite Hu' in H. inversion H. subst u'. exact Hupd.
  - apply sql_analyst_step_raise in E. rewrite E in H. discriminate H.
Qed.

(** C5: when the SQL agent returns, the step returns, and in the
    merged state the SQL result is the one the agent gave; the
    queries are the one-element list of its query when the result is
    there and the query is not empty, and the empty list when the
    query is empty or the result is missing. *)
Theorem C5_sql_queries_roundtrip (state : CollaborativeState) (result : SqlOutput) :
  sql_analyst (sql_input_of state) = Ok result ->
  exists u,
    sql_analyst_step state = Ok u /\
    let state' := apply_update add_messages state u in
    sql_analysis_result state' = out_sql_analysis_result result /\
    (forall r, out_sql_analysis_result result = Some r -> query r <> [] ->
               sql_queries state' = [query r]) /\
    (forall r, out_sql_analysis_result result = Some r -> query r = [] ->
               sql_queries state' = []) /\
    (out_sql_analysis_result result = None -> sql_queries state' = []).
Proof.
  intros H.
  destruct (sql_analyst_step_ok state result H) as [u [Hu Hupd]].
  exists u. split; [exact Hu|].
  destruct Hupd as (_ & _ & _ & _ & Hres & Hq & _).
  unfold apply_update; cbn. rewrite Hres, Hq. cbn.
  split; [reflexivity|]. split; [|split].
  - intros r -> Hne. cbn. destruct (query r); [destruct Hne; reflexivity | reflexivity].
  - intros r -> He. cbn. rewrite He. reflexivity.
  - intros ->. reflexivity.
Qed.

(** C6: after the architect step the collaboration plan of the merged
    state names one of [collaborative], [sql_only] and [code_only];
    the SQL-analyst step returns no collaboration plan, so the merge
    keeps the plan and its strategy; and for a plan that names no
    strategy both routers compare the default [code_only], and so
    decide as they do for a plan that names [code_only]. *)
Theorem C6_strategy_enumerated (state : CollaborativeState) :
  (forall result,
      swe_architect (architect_input state) = Ok result ->
      exists u,
        enhanced_architect state = Ok u /\
        let state' := apply_update add_messages state u in
        strategy_of state' = Some (VStr (lit "collaborative")) \/
        strategy_of state' = Some (VStr (lit "sql_only")) \/
        strategy_of state' = Some (VStr (lit "code_only"))) /\
  (forall u,
      sql_analyst_step state = Ok u ->
      let state' := apply_update add_messages state u in
      upd_collaboration_plan u = None /\
      collaboration_plan state' = collaboration_plan state /\
      strategy_of state' = strategy_of state) /\
  (strategy_of state = None ->
   let code_only := [(lit "strategy", VStr (lit "code_only"))] in
   dict_get_default (collaboration_plan state) (lit "strategy")
                    (VStr (lit "code_only")) = VStr (lit "code_only") /\
   route_after_architect state =
     route_after_architect (with_collaboration_plan state code_only) /\
   route_after_sql state =
     route_after_sql (with_collaboration_plan state code_only) /\
   route_after_architect state = lit "developer" /\
   route_after_sql state = lit "end").
Proof.
  split; [|split].
  - intros result H.
    destruct (enhanced_architect_ok state result H) as [u [Hu Hupd]].
    exists u. split; [exact Hu|].
    destruct Hupd as (_ & _ & _ & Hplan & _).
    unfold strategy_of, apply_update; cbn. rewrite Hplan. cbn.
    rewrite decide_collaboration_strategy.
    destruct (needs_sql _ _); [destruct (needs_code _ _)|]; auto.
  - intros u H.
    destruct (sql_analyst_step_ok_inv state u H) as [result [_ Hupd]].
    destruct Hupd as (_ & _ & _ & Hplan & _).
    unfold strategy_of, apply_update; cbn. rewrite Hplan. cbn.
    repeat split.
  - intros H. cbv zeta.
    unfold route_after_architect, route_after_sql.
    rewrite !strategy_default, H. repeat split.
Qed.

(* ================================================================ *)
(** * The developer step *)
(* ================================================================ *)

Lemma join_cons (sep p q : text) (rest : list text) :
  join sep (p :: q :: rest) = p ++ sep ++ join sep (q :: rest).
Proof. reflexivity. Qed.

(** Every part of a joined text but the first and the last is a whole
    line of it. *)
Lemma has_line_nth (parts : list text) :
  forall i l,
    nth_error parts (S i) = Some l ->
    S (S i) < List.length parts ->
    has_line l (join nl parts).
Proof.
  unfold has_line.
  induction parts as [|p parts IH]; intros i l Hnth Hlen; [discriminate Hnth|].
  destruct parts as [|q parts]; [simpl in Hlen; lia|].
  rewrite join_cons. destruct i as [|i].
  - simpl in Hnth. inversion Hnth; subst q.
    destruct parts as [|q' parts]; [simpl in Hlen; lia|].
    rewrite join_cons. exists p, (join nl (q' :: parts)).
    rewrite <- !app_assoc. reflexivity.
  - apply occurs_app_r, occurs_app_r. apply (IH i l).
    + exact Hnth.
    + simpl in Hlen |- *. lia.
Qed.

(** C9: with a SQL result in the state, the messages given to the
    developer agent are the scratchpad, then one assistant message
    built from the result, then the plan messages: one message more
    than without the result.  That message has a line for the query,
    one for the explanation, one for the confidence and one for the
    warnings, and with no warnings that line reads [Warnings: None].
    Without a SQL result the messages are the scratchpad and the plan
    messages. *)
Theorem C9_developer_sql_context (state : CollaborativeState) :
  (forall r,
      sql_analysis_result state = Some r ->
      developer_messages state =
        implementation_research_scratchpad state
          ++ [AIMessage (sql_context r)]
          ++ plan_context_messages state /\
      developer_messages (without_sql_result state) =
        implementation_research_scratchpad state ++ plan_context_messages state /\
      List.length (developer_messages state) =
        S (List.length (developer_messages (without_sql_result state))) /\
      has_line (lit "        Query: " ++ query r) (sql_context r) /\
      has_line (lit "        Explanation: " ++ explanation r) (sql_context r) /\
      has_line (lit "        Confidence: " ++ py_str (confidence r)) (sql_context r) /\
      (warnings r = [] ->
       has_line (lit "        Warnings: None") (sql_context r)) /\
      (warnings r <> [] ->
       has_line (lit "        Warnings: " ++ py_str (VList (map VStr (warnings r))))
                (sql_context r))) /\
  (sql_analysis_result state = None ->
   developer_messages state =
     implementation_research_scratchpad state ++ plan_context_messages state) /\
  developer_step state =
    (result <- swe_developer
                 {| dev_scratchpad := developer_messages state;
                    dev_implementation_plan := implementation_plan state |} ;;
     Ok result).
Proof.
  split; [|split].
  - intros r Hr.
    assert (Hmsgs : developer_messages state =
                    implementation_research_scratchpad state
                      ++ [AIMessage (sql_context r)] ++ plan_context_messages state).
    { unfold developer_messages, sql_context_messages. rewrite Hr.
      rewrite <- app_assoc. reflexivity. }
    assert (Hwithout : developer_messages (without_sql_result state) =
                       implementation_research_scratchpad state
                         ++ plan_context_messages state).
    { unfold developer_messages, sql_context_messages. cbn.
      rewrite app_nil_r. reflexivity. }
    split; [exact Hmsgs|]. split; [exact Hwithout|]. split.
    { rewrite Hmsgs, Hwithout. rewrite !length_app. cbn. lia. }
    split; [|split; [|split; [|split]]].
    + apply has_line_nth with (i := 2); [reflexivity | cbn; lia].
    + apply has_line_nth with (i := 4); [reflexivity | cbn; lia].
    + apply has_line_nth with (i := 6); [reflexivity | cbn; lia].
    + intros Hw. apply has_line_nth with (i := 8); [|cbn; lia].
      cbn. unfold warnings_display. rewrite Hw. reflexivity.
    + intros Hw. apply has_line_nth with (i := 8); [|cbn; lia].
      cbn. unfold warnings_display.
      destruct (warnings r); [destruct Hw; reflexivity | reflexivity].
  - intros Hr. unfold developer_messages, sql_context_messages. rewrite Hr.
    rewrite app_nil_r. reflexivity.
  - reflexivity.
Qed.

(** C10: with an empty scratchpad no step indexes the scratchpad.  The
    architect agent is called with the one message built from the
    placeholder text, the SQL agent with a brief whose original
    request is the empty string, the developer agent with the
    appended messages alone.  Each step returns exactly when that call
    returns, with the update the code builds from the answer, and
    raises exactly what that call raises. *)
Theorem C10_empty_scratchpad_total (state : CollaborativeState) :
  implementation_research_scratchpad state = [] ->
  let architect_messages :=
    [HumanMessage (enhanced_prompt (lit "No specific requirements provided"))] in
  let sql_input :=
    {| requirements :=
         sql_requirements_text [] (research_summary state)
                               (py_str (VDict (implementation_plan state)));
       schema_information :=
         if nonempty (database_schema state) then database_schema state
         else lit "Schema not provided - create optimal generic queries" |} in
  let developer_input :=
    {| dev_scratchpad := sql_context_messages state ++ plan_context_messages state;
       dev_implementation_plan := implementation_plan state |} in
  (forall result, swe_architect architect_messages = Ok result ->
                  exists u, enhanced_architect state = Ok u /\
                            architect_update_of result u) /\
  (forall e, enhanced_architect state = Raise e <->
             swe_architect architect_messages = Raise e) /\
  (forall u, enhanced_architect state = Ok u ->
             exists result, swe_architect architect_messages = Ok result /\
                            architect_update_of result u) /\
  has_line (lit "    No specific requirements provided")
           (enhanced_prompt (lit "No specific requirements provided")) /\
  (forall out, sql_analyst sql_input = Ok out ->
               exists u, sql_analyst_step state = Ok u /\ sql_update_of out u) /\
  (forall e, sql_analyst_step state = Raise e <-> sql_analyst sql_input = Raise e) /\
  (forall u, sql_analyst_step state = Ok u ->
             exists out, sql_analyst sql_input = Ok out /\ sql_update_of out u) /\
  has_line (lit "    Original Request: ") (requirements sql_input) /\
  developer_step state = swe_developer developer_input.
Proof.
  intros Hempty architect_messages sql_input developer_input.
  assert (Ha : architect_input state = architect_messages).
  { unfold architect_input. rewrite Hempty. reflexivity. }
  assert (Hs : sql_input_of state = sql_input).
  { unfold sql_input_of. rewrite Hempty. reflexivity. }
  assert (Hd : developer_step state = swe_developer developer_input).
  { unfold developer_step, developer_messages. rewrite Hempty.
    change ([] ++ sql_context_messages state) with (sql_context_messages state).
    fold developer_input. destruct (swe_developer developer_input); reflexivity. }
  split; [|split; [|split; [|split; [|split; [|split; [|split; [|split]]]]]]].
  - intros result H. rewrite <- Ha in H. exact (enhanced_architect_ok state result H).
  - intros e. rewrite <- Ha. apply enhanced_architect_raise.
  - intros u H. rewrite <- Ha. exact (enhanced_architect_ok_inv state u H).
  - apply has_line_nth with (i := 0); [reflexivity | cbn; lia].
  - intros out H. rewrite <- Hs in H. exact (sql_analyst_step_ok state out H).
  - intros e. rewrite <- Hs. apply sql_analyst_step_raise.
  - intros u H. rewrite <- Hs. exact (sql_analyst_step_ok_inv state u H).
  - apply has_line_nth with (i := 0); [reflexivity | cbn; lia].
  - exact Hd.
Qed.

(* ================================================================ *)
(** * More about the classification *)
(* ================================================================ *)

(** X1: The literal [[CODE_REQUIRED]] in the plan text or in the summary
    text sets [needs_code]: in the plan it is looked for as it is, in
    the summary its lower-cased form contains the keyword [code]. *)
Theorem code_marker_forces_needs_code (plan_text research_text : text) :
  occurs (lit "[CODE_REQUIRED]") plan_text \/
  occurs (lit "[CODE_REQUIRED]") research_text ->
  needs_code plan_text research_text = true.
Proof.
  intros [H | H]; unfold needs_code.
  - apply str_in_spec in H. rewrite H. reflexivity.
  - apply orb_true_iff. right.
    apply existsb_keyword with (k := lit "code").
    + right. right. left. reflexivity.
    + apply occurs_trans with (b := map ascii_lower (lit "[CODE_REQUIRED]")).
      * apply str_in_spec. reflexivity.
      * apply occurs_lower; [reflexivity|].
        apply occurs_app_r. exact H.
Qed.

(** X2: Keywords are matched without regard to ASCII letter case, and on
    the plan text and the summary text put together with nothing
    between them: an ASCII word whose lower-cased form is a keyword
    sets the flag wherever it occurs in the concatenation, also across
    the seam. *)
Theorem keywords_match_any_ascii_case (w plan_text research_text : text) :
  forallb is_ascii w = true ->
  occurs w (plan_text ++ research_text) ->
  (In (map ascii_lower w) sql_keywords -> needs_sql plan_text research_text = true) /\
  (In (map ascii_lower w) code_keywords -> needs_code plan_text research_text = true).
Proof.
  intros Hw Hocc.
  pose proof (occurs_lower w (plan_text ++ research_text) Hw Hocc) as Hlow.
  split; intros Hin.
  - unfold needs_sql. apply orb_true_iff. right.
    apply existsb_keyword with (k := map ascii_lower w); assumption.
  - unfold needs_code. apply orb_true_iff. right.
    apply existsb_keyword with (k := map ascii_lower w); assumption.
Qed.

(* ================================================================ *)
(** * What the steps read and send *)
(* ================================================================ *)

Lemma last_content_snoc (dflt : text) (ms : list BaseMessage) (m : BaseMessage) :
  last_content dflt (ms ++ [m]) = content m.
Proof. unfold last_content. rewrite rev_app_distr. reflexivity. Qed.

(** X3: Of the scratchpad the architect step and the SQL-analyst step read
    the content of the last message only: earlier messages and the
    author of the last one make no difference.  The architect step
    reads nothing else of the state at all. *)
Theorem steps_read_last_message_only
    (state : CollaborativeState) (ms : list BaseMessage) (m : BaseMessage) :
  implementation_research_scratchpad state = ms ++ [m] ->
  enhanced_architect state =
    enhanced_architect (initial_state [HumanMessage (content m)]) /\
  sql_analyst_step state =
    sql_analyst_step (with_scratchpad state [HumanMessage (content m)]).
Proof.
  intros H. split.
  - unfold enhanced_architect. rewrite !architect_request_ok.
    rewrite H, last_content_snoc. reflexivity.
  - unfold sql_analyst_step. rewrite !sql_request_ok.
    rewrite H, last_content_snoc. reflexivity.
Qed.

Lemma apply_architect_update
    (state : CollaborativeState) (result : ArchitectOutput) (u : StateUpdate) :
  architect_update_of result u ->
  apply_update add_messages state u = after_architect state result.
Proof.
  intros (H1 & H2 & H3 & H4 & H5 & H6 & H7).
  unfold apply_update, after_architect, sql_flag, code_flag.
  rewrite H1, H2, H3, H4, H5, H6, H7. reflexivity.
Qed.

Lemma apply_sql_update (state : CollaborativeState) (out : SqlOutput) (u : StateUpdate) :
  sql_update_of out u ->
  apply_update add_messages state u = after_sql state out.
Proof.
  intros (H1 & H2 & H3 & H4 & H5 & H6 & H7).
  unfold apply_update, after_sql.
  rewrite H1, H2, H3, H4, H5, H6, H7. reflexivity.
Qed.

Lemma run_architect_ok (state : CollaborativeState) (result : ArchitectOutput) :
  swe_architect (architect_input state) = Ok result ->
  run_node enhanced_architect state = Ok (after_architect state result).
Proof.
  intros H. destruct (enhanced_architect_ok state result H) as [u [Hu Hupd]].
  unfold run_node. rewrite Hu. cbn [bind].
  rewrite (apply_architect_update state result u Hupd). reflexivity.
Qed.

Lemma run_architect_raise (state : CollaborativeState) (e : exn) :
  swe_architect (architect_input state) = Raise e ->
  run_node enhanced_architect state = Raise e.
Proof.
  intros H. apply enhanced_architect_raise in H.
  unfold run_node. rewrite H. reflexivity.
Qed.

Lemma run_sql_ok (state : CollaborativeState) (out : SqlOutput) :
  sql_analyst (sql_input_of state) = Ok out ->
  run_node sql_analyst_step state = Ok (after_sql state out).
Proof.
  intros H. destruct (sql_analyst_step_ok state out H) as [u [Hu Hupd]].
  unfold run_node. rewrite Hu. cbn [bind].
  rewrite (apply_sql_update state out u Hupd). reflexivity.
Qed.

Lemma run_sql_raise (state : CollaborativeState) (e : exn) :
  sql_analyst (sql_input_of state) = Raise e ->
  run_node sql_analyst_step state = Raise e.
Proof.
  intros H. apply sql_analyst_step_raise in H.
  unfold run_node. rewrite H. reflexivity.
Qed.

Lemma developer_step_call (state : CollaborativeState) :
  developer_step state = swe_developer (developer_input_for state).
Proof.
  unfold developer_step. fold (developer_input_for state).
  destruct (swe_developer (developer_input_for state)); reflexivity.
Qed.

Lemma run_developer (state : CollaborativeState) :
  run_node developer_step state =
  (delta <- swe_developer (developer_input_for state) ;;
   Ok (apply_update add_messages state delta)).
Proof. unfold run_node. rewrite developer_step_call. reflexivity. Qed.

Lemma route_after_architect_flags (state : CollaborativeState) (result : ArchitectOutput) :
  route_after_architect (after_architect state result) =
  if sql_flag result then lit "sql_analyst" else lit "developer".
Proof.
  unfold route_after_architect. rewrite strategy_default.
  unfold strategy_of, after_architect; cbn [collaboration_plan].
  rewrite decide_collaboration_strategy.
  destruct (sql_flag result); [destruct (code_flag result)|]; reflexivity.
Qed.

Lemma route_after_sql_flags
    (state : CollaborativeState) (result : ArchitectOutput) (out : SqlOutput) :
  route_after_sql (after_sql (after_architect state result) out) =
  if sql_flag result && code_flag result then lit "developer" else lit "end".
Proof.
  unfold route_after_sql. rewrite strategy_default.
  unfold strategy_of, after_sql, after_architect; cbn [collaboration_plan].
  rewrite decide_collaboration_strategy.
  destruct (sql_flag result); [destruct (code_flag result)|]; reflexivity.
Qed.

(** X4: When the architect agent returns a mapping with neither key, the
    node leaves an empty summary and an empty plan in the state, and
    the collaboration plan is the [code_only] one with the single
    basic step; the next node is the developer. *)
Theorem architect_defaults_on_missing_keys (state : CollaborativeState) :
  swe_architect (architect_input state) = Ok (mkArchitectOutput None None) ->
  exists state',
    run_node enhanced_architect state = Ok state' /\
    research_summary state' = [] /\
    implementation_plan state' = [] /\
    collaboration_plan state' =
      [ (lit "strategy", VStr (lit "code_only"));
        (lit "steps", VList [ VStr (lit "1. Developer: Implement basic solution") ]) ] /\
    route_after_architect state' = lit "developer".
Proof.
  intros H. exists (after_architect state (mkArchitectOutput None None)).
  split; [apply run_architect_ok; exact H|].
  repeat split.
Qed.

(** X5: The schema text sent to the SQL agent is never empty: it is the
    state's schema when there is one and the fixed fallback sentence
    otherwise.  The step returns when that call returns and raises
    exactly what it raises. *)
Theorem sql_agent_schema_never_empty (state : CollaborativeState) :
  schema_information (sql_input_of state) <> [] /\
  (database_schema state <> [] ->
   schema_information (sql_input_of state) = database_schema state) /\
  (database_schema state = [] ->
   schema_information (sql_input_of state) =
     lit "Schema not provided - create optimal generic queries") /\
  (forall out, sql_analyst (sql_input_of state) = Ok out ->
               exists u, sql_analyst_step state = Ok u) /\
  (forall e, sql_analyst_step state = Raise e <->
             sql_analyst (sql_input_of state) = Raise e).
Proof.
  split; [|split; [|split; [|split]]].
  - unfold sql_input_of; cbn [schema_information].
    destruct (database_schema state); cbn; discriminate.
  - intros H. unfold sql_input_of; cbn [schema_information].
    destruct (database_schema state); [destruct H; reflexivity | reflexivity].
  - intros H. unfold sql_input_of; cbn [schema_information]. rewrite H. reflexivity.
  - intros out H. destruct (sql_analyst_step_ok state out H) as [u [Hu _]].
    exists u. exact Hu.
  - intros e. apply sql_analyst_step_raise.
Qed.

(* ================================================================ *)
(** * More about the developer step *)
(* ================================================================ *)

(** X6: The developer agent gets the whole scratchpad, in order, followed
    by at most two messages, all written as the assistant: one when
    there is a SQL result and one when the plan is not empty.  With
    neither it gets the scratchpad as it is. *)
Theorem developer_messages_extend_scratchpad (state : CollaborativeState) :
  exists extra,
    dev_scratchpad (developer_input_for state) =
      implementation_research_scratchpad state ++ extra /\
    developer_step state = swe_developer (developer_input_for state) /\
    Forall (fun m => msg_role m = AI) extra /\
    List.length extra =
      (match sql_analysis_result state with Some _ => 1 | None => 0 end)
      + (if nonempty (implementation_plan state) then 1 else 0) /\
    (sql_analysis_result state = None -> implementation_plan state = [] ->
     extra = []).
Proof.
  exists (sql_context_messages state ++ plan_context_messages state).
  split; [|split; [|split; [|split]]].
  - cbn. unfold developer_messages. rewrite app_assoc. reflexivity.
  - apply developer_step_call.
  - unfold sql_context_messages, plan_context_messages.
    destruct (sql_analysis_result state);
      destruct (nonempty (implementation_plan state)); cbn;
      repeat constructor.
  - unfold sql_context_messages, plan_context_messages.
    destruct (sql_analysis_result state);
      destruct (nonempty (implementation_plan state)); reflexivity.
  - intros Hs Hp. unfold sql_context_messages, plan_context_messages.
    rewrite Hs, Hp. reflexivity.
Qed.

(** X7: With a plan that is not empty the last message given to the
    developer agent is the plan message.  It has a line with the plan
    as [str] shows it and a line naming the strategy; for a
    collaboration plan without strategy that line reads [unknown],
    although both routers take such a plan for [code_only]. *)
Theorem developer_plan_context (state : CollaborativeState) :
  implementation_plan state <> [] ->
  (exists before,
      developer_messages state = before ++ [AIMessage (plan_context state)]) /\
  has_line (lit "        " ++ py_str (VDict (implementation_plan state)))
           (plan_context state) /\
  (forall v, strategy_of state = Some v ->
     has_line (lit "        COLLABORATION STRATEGY: " ++ py_str v) (plan_context state)) /\
  (strategy_of state = None ->
     has_line (lit "        COLLABORATION STRATEGY: unknown") (plan_context state) /\
     route_after_architect state = lit "developer" /\
     route_after_sql state = lit "end").
Proof.
  intros Hplan. split; [|split; [|split]].
  - exists (implementation_research_scratchpad state ++ sql_context_messages state).
    unfold developer_messages, plan_context_messages.
    destruct (implementation_plan state); [destruct Hplan; reflexivity | reflexivity].
  - apply has_line_nth with (i := 1); [reflexivity | cbn; lia].
  - intros v Hv. apply has_line_nth with (i := 3); [|cbn; lia].
    unfold plan_context. cbn [nth_error]. unfold dict_get_default.
    unfold strategy_of in Hv. rewrite Hv. reflexivity.
  - intros Hnone. split; [|split].
    + apply has_line_nth with (i := 3); [|cbn; lia].
      unfold plan_context. cbn [nth_error]. unfold dict_get_default.
      unfold strategy_of in Hnone. rewrite Hnone. reflexivity.
    + unfold route_after_architect. rewrite strategy_default, Hnone. reflexivity.
    + unfold route_after_sql. rewrite strategy_default, Hnone. reflexivity.
Qed.

(* ================================================================ *)
(** * The whole workflow *)
(* ================================================================ *)

(** The workflow after the architect agent has returned. *)
Lemma swe_agent_after_architect (state : CollaborativeState) (result : ArchitectOutput) :
  swe_architect (architect_input state) = Ok result ->
  swe_agent state =
  let s1 := after_architect state result in
  if sql_flag result then
    s2 <- run_node sql_analyst_step s1 ;;
    if code_flag result then
      s3 <- run_node developer_step s2 ;;
      Ok ([lit "architect"; lit "sql_analyst"; lit "developer"], s3)
    else Ok ([lit "architect"; lit "sql_analyst"], s2)
  else
    s3 <- run_node developer_step s1 ;;
    Ok ([lit "architect"; lit "developer"], s3).
Proof.
  intros H. unfold swe_agent. rewrite (run_architect_ok state result H). cbn [bind].
  cbv zeta. rewrite route_after_architect_flags.
  destruct (sql_flag result) eqn:Es; [|reflexivity].
  change (text_eqb (lit "sql_analyst") (lit "sql_analyst")) with true. cbv iota.
  destruct (sql_analyst (sql_input_of (after_architect state result))) as [out|e] eqn:Eo.
  - rewrite (run_sql_ok _ out Eo). cbn [bind].
    pose proof (route_after_sql_flags state result out) as Hr.
    rewrite Es in Hr. cbn [andb] in Hr. rewrite Hr.
    destruct (code_flag result); reflexivity.
  - rewrite (run_sql_raise _ e Eo). reflexivity.
Qed.

(** X8: When no SQL work is found the SQL agent is not consulted: the
    workflow is the architect followed by the developer, whose answer
    is merged into the state the architect left.  The state keeps the
    SQL fields it started with. *)
Theorem code_only_run_skips_sql_analyst
    (state : CollaborativeState) (result : ArchitectOutput) :
  swe_architect (architect_input state) = Ok result ->
  sql_flag result = false ->
  swe_agent state =
    (delta <- swe_developer (developer_input_for (after_architect state result)) ;;
     Ok ([lit "architect"; lit "developer"],
         apply_update add_messages (after_architect state result) delta)) /\
  sql_queries (after_architect state result) = sql_queries state /\
  sql_analysis_result (after_architect state result) = sql_analysis_result state.
Proof.
  intros H Hs. split; [|split; reflexivity].
  rewrite (swe_agent_after_architect state result H). cbv zeta.
  rewrite Hs, run_developer.
  destruct (swe_developer _); reflexivity.
Qed.

(** X9: when only SQL work is found and the SQL agent answers with a
    result, the workflow ends after the SQL analyst and the developer
    agent is not consulted.  The final state has the scratchpad and
    the schema it started with, the architect's summary and plan, the
    agent's SQL result and the queries taken from it, and its strategy
    is [sql_only]. *)
Theorem sql_only_run_ends_after_sql_analyst
    (state : CollaborativeState) (result : ArchitectOutput) (out : SqlOutput)
    (r : SQLAnalysisResult) :
  swe_architect (architect_input state) = Ok result ->
  sql_flag result = true ->
  code_flag result = false ->
  sql_analyst (sql_input_of (after_architect state result)) = Ok out ->
  out_sql_analysis_result out = Some r ->
  exists final,
    swe_agent state = Ok ([lit "architect"; lit "sql_analyst"], final) /\
    implementation_research_scratchpad final = implementation_research_scratchpad state /\
    database_schema final = database_schema state /\
    research_summary final =
      match out_research_summary result with Some t => t | None => [] end /\
    implementation_plan final =
      match out_implementation_plan result with Some p => p | None => [] end /\
    strategy_of final = Some (VStr (lit "sql_only")) /\
    sql_analysis_result final = Some r /\
    sql_queries final = (if nonempty (query r) then [query r] else []).
Proof.
  intros H Hs Hc Ho Hr.
  exists (after_sql (after_architect state result) out).
  split.
  - rewrite (swe_agent_after_architect state result H). cbv zeta.
    rewrite Hs, Hc, (run_sql_ok _ out Ho). reflexivity.
  - unfold strategy_of, after_sql, after_architect; cbn.
    rewrite Hs, Hc, Hr. repeat split.
Qed.

(** X10: when both kinds of work are found and the SQL agent answers
    with a result, all three nodes run in order, and the developer
    agent is called on the state the SQL analyst left: after the
    scratchpad it finds the message with the SQL result, and its plan
    message names the strategy [collaborative]. *)
Theorem collaborative_run_hands_sql_to_developer
    (state : CollaborativeState) (result : ArchitectOutput) (out : SqlOutput)
    (r : SQLAnalysisResult) :
  swe_architect (architect_input state) = Ok result ->
  sql_flag result = true ->
  code_flag result = true ->
  sql_analyst (sql_input_of (after_architect state result)) = Ok out ->
  out_sql_analysis_result out = Some r ->
  let s2 := after_sql (after_architect state result) out in
  swe_agent state =
    (delta <- swe_developer (developer_input_for s2) ;;
     Ok ([lit "architect"; lit "sql_analyst"; lit "developer"],
         apply_update add_messages s2 delta)) /\
  dev_scratchpad (developer_input_for s2) =
    implementation_research_scratchpad state
      ++ AIMessage (sql_context r) :: plan_context_messages s2 /\
  (implementation_plan s2 <> [] ->
     has_line (lit "        COLLABORATION STRATEGY: collaborative") (plan_context s2)).
Proof.
  intros H Hs Hc Ho Hr s2. split; [|split].
  - rewrite (swe_agent_after_architect state result H). cbv zeta.
    rewrite Hs, Hc, (run_sql_ok _ out Ho). cbn [bind]. fold s2.
    rewrite run_developer. destruct (swe_developer _); reflexivity.
  - cbn [developer_input_for dev_scratchpad].
    unfold developer_messages, sql_context_messages.
    unfold s2 at 1 2. cbn [after_sql after_architect
      implementation_research_scratchpad sql_analysis_result].
    rewrite Hr, <- app_assoc. reflexivity.
  - intros _. apply has_line_nth with (i := 3); [|cbn; lia].
    unfold plan_context. cbn [nth_error]. unfold dict_get_default.
    unfold s2, after_sql, after_architect; cbn [collaboration_plan].
    rewrite decide_collaboration_strategy, Hs, Hc. reflexivity.
Qed.

(** X11: A run that completes went one of the three ways, and the two flags
    computed from the architect's answer say which; the architect is
    always first, and the developer runs at most once and last. *)
Theorem completed_run_follows_the_flags
    (state final : CollaborativeState) (path : list text) :
  swe_agent state = Ok (path, final) ->
  exists result,
    swe_architect (architect_input state) = Ok result /\
    path = path_for (sql_flag result) (code_flag result).
Proof.
  intros H.
  destruct (swe_architect (architect_input state)) as [result|e] eqn:Ea.
  - exists result. split; [reflexivity|].
    rewrite (swe_agent_after_architect state result Ea) in H. cbv zeta in H.
    unfold path_for.
    destruct (sql_flag result).
    + destruct (run_node sql_analyst_step _) as [s2|e]; [|discriminate H].
      cbn [bind] in H. destruct (code_flag result).
      * destruct (run_node developer_step s2) as [s3|e]; [|discriminate H].
        inversion H. reflexivity.
      * inversion H. reflexivity.
    + destruct (run_node developer_step _) as [s3|e]; [|discriminate H].
      inversion H. reflexivity.
  - unfold swe_agent in H. rewrite (run_architect_raise state e Ea) in H.
    discriminate H.
Qed.

(** X12: with a SQL agent whose every answer carries a result, the
    workflow raises nothing of its own: whatever it raises was raised
    by a call of one of the three agents.  (An answer without result
    is the case that the runtime's check of the state, which is not
    modelled, turns on.) *)
Theorem run_raises_only_what_an_agent_raised (state : CollaborativeState) (e : exn) :
  (forall input out, sql_analyst input = Ok out -> out_sql_analysis_result out <> None) ->
  swe_agent state = Raise e ->
  (exists messages, swe_architect messages = Raise e) \/
  (exists input, sql_analyst input = Raise e) \/
  (exists input, swe_developer input = Raise e).
Proof.
  intros _ H.
  assert (Hdev : forall s (k : list text),
             (s3 <- run_node developer_step s ;; Ok (k, s3)) = Raise e ->
             exists input, swe_developer input = Raise e).
  { intros s k Hk. rewrite run_developer in Hk.
    exists (developer_input_for s).
    destruct (swe_developer (developer_input_for s)); [discriminate Hk|].
    inversion Hk. reflexivity. }
  destruct (swe_architect (architect_input state)) as [result|e'] eqn:Ea.
  - rewrite (swe_agent_after_architect state result Ea) in H. cbv zeta in H.
    destruct (sql_flag result).
    + destruct (sql_analyst (sql_input_of (after_architect state result)))
        as [out|e'] eqn:Eo.
      * rewrite (run_sql_ok _ out Eo) in H. cbn [bind] in H.
        destruct (code_flag result); [|discriminate H].
        right. right. exact (Hdev _ _ H).
      * rewrite (run_sql_raise _ e' Eo) in H. inversion H. subst e'.
        right. left. eexists. exact Eo.
    + right. right. exact (Hdev _ _ H).
  - unfold swe_agent in H. rewrite (run_architect_raise state e' Ea) in H.
    inversion H. subst e'. left. eexists. exact Ea.
Qed.

End Workflow.

(* ================================================================== *)
(** * The theorems at sample inputs *)
(* ================================================================== *)

Lemma no_keyword_occurs (kws : list text) (s : text) :
  forallb (fun k => negb (str_in k s)) kws = true ->
  forall k, In k kws -> ~ occurs k s.
Proof.
  intros H k Hin Hocc. rewrite forallb_forall in H.
  specialize (H k Hin). apply str_in_spec in Hocc. rewrite Hocc in H. discriminate H.
Qed.

Lemma C1_witness :
  (exists u plan,
      enhanced_architect keep_above_ascii sample_repr
        (architect_returning dashboard_app_output) request_state = Ok u /\
      upd_collaboration_plan u = Some plan /\
      dict_get plan (lit "strategy") = Some (VStr (lit "collaborative"))) /\
  (exists u plan,
      enhanced_architect keep_above_ascii sample_repr
        (architect_returning quiet_output) request_state = Ok u /\
      upd_collaboration_plan u = Some plan /\
      dict_get plan (lit "strategy") = Some (VStr (lit "code_only"))).
Proof.
  split.
  - destruct (C1_strategy_decision_table keep_above_ascii sample_repr
                (architect_returning dashboard_app_output) request_state
                dashboard_app_output eq_refl)
      as (u & plan & strategy & Hu & Hp & Hs & Hboth & _).
    exists u, plan. rewrite <- (Hboth eq_refl eq_refl).
    split; [exact Hu | split; [exact Hp | exact Hs]].
  - destruct (C1_strategy_decision_table keep_above_ascii sample_repr
                (architect_returning quiet_output) request_state
                quiet_output eq_refl)
      as (u & plan & strategy & Hu & Hp & Hs & _ & _ & _ & _ & Hnone).
    exists u, plan. rewrite <- Hnone.
    + split; [exact Hu | split; [exact Hp | exact Hs]].
    + intros k Hk. apply (no_keyword_occurs (sql_keywords ++ code_keywords)).
      * vm_compute. reflexivity.
      * apply in_or_app. exact Hk.
    + rewrite <- str_in_spec. vm_compute. discriminate.
    + rewrite <- str_in_spec. vm_compute. discriminate.
Defined.

Lemma C2_witness :
  route_after_architect (state_with_strategy (VStr (lit "collaborative"))) =
    lit "sql_analyst" /\
  route_after_architect (state_with_strategy (VStr (lit "sql_only"))) =
    lit "sql_analyst" /\
  route_after_architect (state_with_strategy (VStr (lit "code_only"))) =
    lit "developer" /\
  route_after_architect (state_with_strategy (VInt 7)) = lit "developer" /\
  route_after_architect empty_state = lit "developer".
Proof.
  split; [|split; [|split; [|split]]].
  - destruct (C2_route_after_architect_total
                (state_with_strategy (VStr (lit "collaborative"))) empty_state)
      as (_ & H & _).
    apply H. reflexivity.
  - destruct (C2_route_after_architect_total
                (state_with_strategy (VStr (lit "sql_only"))) empty_state)
      as (_ & _ & H & _).
    apply H. reflexivity.
  - destruct (C2_route_after_architect_total
                (state_with_strategy (VStr (lit "code_only"))) empty_state)
      as (_ & _ & _ & _ & H & _).
    apply H. reflexivity.
  - destruct (C2_route_after_architect_total (state_with_strategy (VInt 7))
                empty_state)
      as (_ & _ & _ & H & _).
    apply H; discriminate.
  - destruct (C2_route_after_architect_total empty_state
                (state_with_strategy VNone))
      as (_ & _ & _ & _ & _ & H & _).
    apply H. reflexivity.
Defined.

Lemma C3_witness :
  route_after_sql (state_with_strategy (VStr (lit "collaborative"))) =
    lit "developer" /\
  route_after_sql (state_with_strategy (VStr (lit "sql_only"))) = lit "end" /\
  route_after_sql (state_with_strategy (VStr (lit "code_only"))) = lit "end".
Proof.
  split; [|split].
  - destruct (C3_route_after_sql (state_with_strategy (VStr (lit "collaborative")))
                collaborative_state)
      as (_ & H & _).
    apply H. reflexivity.
  - destruct (C3_route_after_sql (state_with_strategy (VStr (lit "sql_only")))
                empty_state)
      as (_ & _ & _ & H).
    apply H. reflexivity.
  - destruct (C3_route_after_sql (state_with_strategy (VStr (lit "code_only")))
                empty_state)
      as (_ & _ & H & _).
    apply H. discriminate.
Defined.

Lemma C4_witness :
  needs_sql keep_above_ascii (lit "[SQL_REQUIRED] load the table") (lit "Wait") = true /\
  needs_sql keep_above_ascii (lit "Wait") (lit "Step one [SQL_REQUIRED]") = true.
Proof.
  split.
  - apply C4_sql_marker_forces_needs_sql. left.
    exists [], (lit " load the table"). reflexivity.
  - apply C4_sql_marker_forces_needs_sql. right.
    exists (lit "Step one "), []. reflexivity.
Defined.

Lemma C5_witness :
  (exists u,
      sql_analyst_step sample_repr
        (sql_analyst_returning (mkSqlOutput (Some sample_sql_result)))
        request_state = Ok u /\
      sql_queries (apply_update append_messages request_state u) =
        [ lit "SELECT region, SUM(amount) FROM sales GROUP BY region" ]) /\
  (exists u,
      sql_analyst_step sample_repr
        (sql_analyst_returning (mkSqlOutput (Some sample_sql_result_without_query)))
        request_state = Ok u /\
      sql_queries (apply_update append_messages request_state u) = []) /\
  (exists u,
      sql_analyst_step sample_repr (sql_analyst_returning (mkSqlOutput None))
        request_state = Ok u /\
      sql_queries (apply_update append_messages request_state u) = []).
Proof.
  split; [|split].
  - destruct (C5_sql_queries_roundtrip sample_repr
                (sql_analyst_returning (mkSqlOutput (Some sample_sql_result)))
                append_messages request_state
                (mkSqlOutput (Some sample_sql_result)) eq_refl)
      as (u & Hu & _ & H & _).
    exists u. split; [exact Hu|].
    apply (H sample_sql_result); [reflexivity | discriminate].
  - destruct (C5_sql_queries_roundtrip sample_repr
                (sql_analyst_returning (mkSqlOutput (Some sample_sql_result_without_query)))
                append_messages request_state
                (mkSqlOutput (Some sample_sql_result_without_query)) eq_refl)
      as (u & Hu & _ & _ & H & _).
    exists u. split; [exact Hu|].
    apply (H sample_sql_result_without_query); reflexivity.
  - destruct (C5_sql_queries_roundtrip sample_repr
                (sql_analyst_returning (mkSqlOutput None))
                append_messages request_state (mkSqlOutput None) eq_refl)
      as (u & Hu & _ & _ & _ & H).
    exists u. split; [exact Hu|].
    apply H. reflexivity.
Defined.

Lemma C6_witness :
  (exists u,
      enhanced_architect keep_above_ascii sample_repr
        (architect_returning sales_report_output) request_state = Ok u /\
      let state' := apply_update append_messages request_state u in
      strategy_of state' = Some (VStr (lit "collaborative")) \/
      strategy_of state' = Some (VStr (lit "sql_only")) \/
      strategy_of state' = Some (VStr (lit "code_only"))) /\
  (exists u,
      sql_analyst_step sample_repr
        (sql_analyst_returning (mkSqlOutput (Some sample_sql_result)))
        collaborative_state = Ok u /\
      strategy_of (apply_update append_messages collaborative_state u) =
        Some (VStr (lit "collaborative"))) /\
  route_after_architect empty_state = lit "developer" /\
  route_after_sql empty_state = lit "end".
Proof.
  destruct (C6_strategy_enumerated keep_above_ascii sample_repr
              (architect_returning sales_report_output)
              (sql_analyst_returning (mkSqlOutput (Some sample_sql_result)))
              append_messages request_state) as (Harch & _ & _).
  destruct (C6_strategy_enumerated keep_above_ascii sample_repr
              (architect_returning sales_report_output)
              (sql_analyst_returning (mkSqlOutput (Some sample_sql_result)))
              append_messages collaborative_state) as (_ & Hsql & _).
  destruct (C6_strategy_enumerated keep_above_ascii sample_repr
              (architect_returning sales_report_output)
              (sql_analyst_returning (mkSqlOutput (Some sample_sql_result)))
              append_messages empty_state) as (_ & _ & Hunset).
  split; [|split].
  - exact (Harch sales_report_output eq_refl).
  - destruct (sql_analyst_step sample_repr
                (sql_analyst_returning (mkSqlOutput (Some sample_sql_result)))
                collaborative_state) as [u|e] eqn:Hu; [|discriminate Hu].
    exists u. split; [reflexivity|].
    destruct (Hsql u eq_refl) as (_ & _ & H). rewrite H. reflexivity.
  - destruct (Hunset eq_refl) as (_ & _ & _ & H1 & H2). split; [exact H1 | exact H2].
Defined.

Lemma C7_witness :
  route_after_architect collaborative_state =
    route_after_architect (state_with_strategy (VStr (lit "collaborative"))) /\
  route_after_sql collaborative_state =
    route_after_sql (state_with_strategy (VStr (lit "collaborative"))).
Proof.
  apply C7_routers_read_only_the_plan. reflexivity.
Defined.

Lemma C8_witness :
  exists u,
    enhanced_architect keep_above_ascii sample_repr
      (architect_returning dashboard_app_output) collaborative_state = Ok u /\
    implementation_research_scratchpad
      (apply_update append_messages collaborative_state u) =
      [ HumanMessage (lit "Build an analytics dashboard application") ] /\
    sql_analysis_result (apply_update append_messages collaborative_state u) =
      Some sample_sql_result.
Proof.
  destruct (enhanced_architect keep_above_ascii sample_repr
              (architect_returning dashboard_app_output) collaborative_state)
    as [u|e] eqn:Hu; [|discriminate Hu].
  exists u. split; [reflexivity|].
  destruct (C8_architect_frame keep_above_ascii sample_repr
              (architect_returning dashboard_app_output) append_messages
              collaborative_state u Hu) as (H1 & H2 & _).
  split; [exact H1 | exact H2].
Defined.

Lemma C9_witness :
  developer_messages sample_repr collaborative_state =
    [ HumanMessage (lit "Build an analytics dashboard application");
      AIMessage (sql_context sample_repr sample_sql_result);
      AIMessage (plan_context sample_repr collaborative_state) ] /\
  has_line (lit "        Warnings: None") (sql_context sample_repr sample_sql_result) /\
  has_line (lit "        Warnings: ['full table scan']")
           (sql_context sample_repr sample_sql_result_with_warning) /\
  developer_messages sample_repr request_state =
    [ HumanMessage (lit "Build a dashboard showing monthly sales") ].
Proof.
  destruct (C9_developer_sql_context sample_repr developer_echo collaborative_state)
    as (Hsome & _).
  destruct (Hsome sample_sql_result eq_refl) as (Hmsgs & _ & _ & _ & _ & _ & Hw & _).
  destruct (C9_developer_sql_context sample_repr developer_echo warned_state)
    as (Hwarned & _).
  destruct (Hwarned sample_sql_result_with_warning eq_refl)
    as (_ & _ & _ & _ & _ & _ & _ & Hw').
  destruct (C9_developer_sql_context sample_repr developer_echo request_state)
    as (_ & Hnone & _).
  split; [|split; [|split]].
  - rewrite Hmsgs. reflexivity.
  - apply Hw. reflexivity.
  - apply Hw'. discriminate.
  - rewrite (Hnone eq_refl). reflexivity.
Defined.

Lemma C10_witness :
  (exists u,
      enhanced_architect keep_above_ascii sample_repr
        (architect_returning empty_output) empty_state = Ok u /\
      upd_collaboration_plan u =
        Some (decide_collaboration false false)) /\
  enhanced_architect keep_above_ascii sample_repr architect_failing empty_state =
    Raise (AgentError (lit "timeout")) /\
  (exists u,
      sql_analyst_step sample_repr (sql_analyst_returning (mkSqlOutput None))
        empty_state = Ok u /\
      upd_sql_queries u = Some []) /\
  developer_step sample_repr developer_echo empty_state =
    Ok (mkUpdate (Some []) None None None None None None).
Proof.
  destruct (C10_empty_scratchpad_total keep_above_ascii sample_repr
              (architect_returning empty_output)
              (sql_analyst_returning (mkSqlOutput None))
              developer_echo empty_state eq_refl)
    as (Ha & _ & _ & _ & Hs & _ & _ & _ & Hd).
  destruct (C10_empty_scratchpad_total keep_above_ascii sample_repr
              architect_failing
              (sql_analyst_returning (mkSqlOutput None))
              developer_echo empty_state eq_refl)
    as (_ & Hraise & _).
  split; [|split; [|split]].
  - destruct (Ha empty_output eq_refl) as (u & Hu & Hupd).
    exists u. split; [exact Hu|].
    destruct Hupd as (_ & _ & _ & Hplan & _). exact Hplan.
  - apply Hraise. reflexivity.
  - destruct (Hs (mkSqlOutput None) eq_refl) as (u & Hu & Hupd).
    exists u. split; [exact Hu|].
    destruct Hupd as (_ & _ & _ & _ & _ & Hq & _). exact Hq.
  - rewrite Hd. reflexivity.
Defined.

(* ================================================================== *)
(** * The workflow on the sample requests *)
(* ================================================================== *)

(** A request answered with data words only: the workflow ends after
    the SQL analyst, with the query extracted. *)
Example run_sql_only :
  exists final,
    swe_agent keep_above_ascii sample_repr
      (architect_returning sales_report_output)
      (sql_analyst_returning (mkSqlOutput (Some sample_sql_result)))
      developer_echo append_messages request_state =
      Ok ([lit "architect"; lit "sql_analyst"], final) /\
    strategy_of final = Some (VStr (lit "sql_only")) /\
    sql_queries final = [ query sample_sql_result ].
Proof. eexists. split; [vm_compute; reflexivity | split; reflexivity]. Qed.

(** A request answered with software words only: the SQL analyst is
    skipped. *)
Example run_code_only :
  exists final,
    swe_agent keep_above_ascii sample_repr
      (architect_returning rest_api_output)
      (sql_analyst_returning (mkSqlOutput (Some sample_sql_result)))
      developer_echo append_messages request_state =
      Ok ([lit "architect"; lit "developer"], final) /\
    strategy_of final = Some (VStr (lit "code_only")) /\
    sql_queries final = [].
Proof. eexists. split; [vm_compute; reflexivity | split; reflexivity]. Qed.

(** A request answered with both: all three nodes run in order. *)
Example run_collaborative :
  exists final,
    swe_agent keep_above_ascii sample_repr
      (architect_returning dashboard_app_output)
      (sql_analyst_returning (mkSqlOutput (Some sample_sql_result)))
      developer_echo append_messages request_state =
      Ok ([lit "architect"; lit "sql_analyst"; lit "developer"], final) /\
    strategy_of final = Some (VStr (lit "collaborative")).
Proof. eexists. split; [vm_compute; reflexivity | reflexivity]. Qed.

(** An empty scratchpad and an architect that says nothing: the
    strategy is [code_only]. *)
Example run_empty :
  exists final,
    swe_agent keep_above_ascii sample_repr
      (architect_returning empty_output)
      (sql_analyst_returning (mkSqlOutput None))
      developer_echo append_messages empty_state =
      Ok ([lit "architect"; lit "developer"], final) /\
    strategy_of final = Some (VStr (lit "code_only")).
Proof. eexists. split; [vm_compute; reflexivity | reflexivity]. Qed.

(** What an agent raises comes out of the step unchanged. *)
Example failing_architect_propagates :
  enhanced_architect keep_above_ascii sample_repr architect_failing empty_state =
  Raise (AgentError (lit "timeout")).
Proof. reflexivity. Qed.

(** The marker in the summary alone sets the SQL flag, through the
    keyword [sql] of its lower-cased form. *)
Example marker_in_summary_needs_sql :
  needs_sql keep_above_ascii
    (py_str sample_repr (plan_or_empty_str marker_in_summary_output))
    (py_str sample_repr (summary_or_empty_str marker_in_summary_output)) = true /\
  str_in (lit "[SQL_REQUIRED]")
    (py_str sample_repr (plan_or_empty_str marker_in_summary_output)) = false.
Proof. split; vm_compute; reflexivity. Qed.

(* ================================================================== *)
(** * Facts about dictionaries *)
(* ================================================================== *)

Lemma text_eqb_same (a : text) : text_eqb a a = true.
Proof. apply text_eqb_eq. reflexivity. Qed.

Lemma text_eqb_neq (a b : text) : a <> b -> text_eqb a b = false.
Proof.
  intros H. destruct (text_eqb a b) eqn:E; [|reflexivity].
  apply text_eqb_eq in E. destruct (H E).
Qed.

Lemma dict_get_set_same (d : dict) (k : text) (v : value) :
  dict_get (dict_set d k v) k = Some v.
Proof.
  induction d as [|[k0 x] d IH]; simpl.
  - rewrite text_eqb_same. reflexivity.
  - destruct (text_eqb k0 k) eqn:E; simpl; rewrite E; [reflexivity | exact IH].
Qed.

Lemma dict_get_set_other (d : dict) (k k' : text) (v : value) :
  k <> k' -> dict_get (dict_set d k v) k' = dict_get d k'.
Proof.
  intros Hne. induction d as [|[k0 x] d IH]; simpl.
  - rewrite (text_eqb_neq k k' Hne). reflexivity.
  - destruct (text_eqb k0 k) eqn:E; simpl.
    + apply text_eqb_eq in E. subst k0.
      rewrite (text_eqb_neq k k' Hne). reflexivity.
    + destruct (text_eqb k0 k'); [reflexivity | exact IH].
Qed.

Lemma dict_get_app (a b : dict) (k : text) :
  dict_get (a ++ b) k =
  match dict_get a k with
  | Some v => Some v
  | None => dict_get b k
  end.
Proof.
  induction a as [|[k0 x] a IH]; simpl; [reflexivity|].
  destruct (text_eqb k0 k); [reflexivity | exact IH].
Qed.

Lemma dict_get_none (d : dict) (k : text) :
  dict_get d k = None <-> ~ In k (map fst d).
Proof.
  induction d as [|[k0 x] d IH]; simpl.
  - tauto.
  - destruct (text_eqb k0 k) eqn:E.
    + apply text_eqb_eq in E. split; [discriminate | intros H; destruct H; auto].
    + rewrite IH. split.
      * intros H [H1 | H1]; [|exact (H H1)].
        subst k0. rewrite text_eqb_same in E. discriminate E.
      * intros H H1. apply H. right. exact H1.
Qed.

Lemma dict_get_in (d : dict) (k : text) (v : value) :
  dict_get d k = Some v -> In k (map fst d).
Proof.
  intros H. destruct (in_dec (list_eq_dec N.eq_dec) k (map fst d)) as [Hin | Hout];
    [exact Hin|].
  apply dict_get_none in Hout. rewrite Hout in H. discriminate H.
Qed.

(** With each key once, the last entry for a key is the first. *)
Lemma dict_get_rev (d : dict) (k : text) :
  NoDup (map fst d) -> dict_get (rev d) k = dict_get d k.
Proof.
  induction d as [|[k0 x] d IH]; intros Hnd; [reflexivity|].
  simpl in Hnd. inversion Hnd as [|? ? Hout Hnd']; subst.
  simpl. rewrite dict_get_app, (IH Hnd'). simpl.
  destruct (text_eqb k0 k) eqn:E.
  - apply text_eqb_eq in E. subst k0.
    apply dict_get_none in Hout. rewrite Hout. reflexivity.
  - destruct (dict_get d k); reflexivity.
Qed.

(** Setting pairs one after the other: the last pair for a key
    decides, and a key without pair keeps what it had. *)
Lemma dict_get_fold_set (pairs : list (text * value)) :
  forall (d : dict) (k : text),
    dict_get (fold_left (fun d kv => dict_set d (fst kv) (snd kv)) pairs d) k =
    match dict_get (rev pairs) k with
    | Some v => Some v
    | None => dict_get d k
    end.
Proof.
  induction pairs as [|[k0 x] pairs IH]; intros d k; [reflexivity|].
  simpl. rewrite IH, dict_get_app. simpl.
  destruct (dict_get (rev pairs) k); [reflexivity|].
  destruct (text_eqb k0 k) eqn:E.
  - apply text_eqb_eq in E. subst k0. apply dict_get_set_same.
  - apply dict_get_set_other. intros ->. rewrite text_eqb_same in E. discriminate E.
Qed.

Lemma keys_dict_set (d : dict) (k x : text) (v : value) :
  In x (map fst (dict_set d k v)) -> x = k \/ In x (map fst d).
Proof.
  induction d as [|[k0 y] d IH]; simpl.
  - intros [H | []]. left. symmetry. exact H.
  - destruct (text_eqb k0 k); simpl; [tauto|].
    intros [H | H]; [tauto|]. destruct (IH H); tauto.
Qed.

Lemma nodup_dict_set (d : dict) (k : text) (v : value) :
  NoDup (map fst d) -> NoDup (map fst (dict_set d k v)).
Proof.
  induction d as [|[k0 y] d IH]; simpl; intros Hnd.
  - constructor; [intros [] | constructor].
  - inversion Hnd as [|? ? Hout Hnd']; subst.
    destruct (text_eqb k0 k) eqn:E; simpl.
    + constructor; assumption.
    + constructor; [|apply IH; exact Hnd'].
      intros Hin. destruct (keys_dict_set d k k0 v Hin) as [H | H].
      * subst k0. rewrite text_eqb_same in E. discriminate E.
      * exact (Hout H).
Qed.

Lemma keys_fold_set (pairs : list (text * value)) :
  forall (d : dict) (x : text),
    In x (map fst (fold_left (fun d kv => dict_set d (fst kv) (snd kv)) pairs d)) ->
    In x (map fst pairs) \/ In x (map fst d).
Proof.
  induction pairs as [|[k0 y] pairs IH]; intros d x H; simpl in *; [tauto|].
  destruct (IH _ _ H) as [H1 | H1]; [tauto|].
  destruct (keys_dict_set d k0 x y H1); [left; left; symmetry; assumption | tauto].
Qed.

Lemma nodup_fold_set (pairs : list (text * value)) :
  forall d : dict,
    NoDup (map fst d) ->
    NoDup (map fst (fold_left (fun d kv => dict_set d (fst kv) (snd kv)) pairs d)).
Proof.
  induction pairs as [|[k0 y] pairs IH]; intros d H; simpl; [exact H|].
  apply IH. apply nodup_dict_set. exact H.
Qed.

Lemma nodup_dict_of_pairs (pairs : list (text * value)) :
  NoDup (map fst (dict_of_pairs pairs)).
Proof. apply nodup_fold_set. constructor. Qed.

Lemma dict_get_dict_of_pairs (pairs : list (text * value)) (k : text) :
  dict_get (dict_of_pairs pairs) k = dict_get (rev pairs) k.
Proof.
  unfold dict_of_pairs. rewrite dict_get_fold_set.
  destruct (dict_get (rev pairs) k); reflexivity.
Qed.

Lemma nodup_props_of (c : config) : well_formed c -> NoDup (map fst (props_of c)).
Proof.
  destruct c as [d | obj]; simpl; intros H; [exact H|].
  apply nodup_dict_of_pairs.
Qed.

(* ================================================================== *)
(** * [GenericConf] *)
(* ================================================================== *)

Lemma GenericConf_fold (confs : list config) :
  GenericConf confs = fold_left set_all confs [].
Proof. reflexivity. Qed.

Lemma GenericConf_snoc (confs : list config) (c : config) :
  GenericConf (confs ++ [c]) = set_all (GenericConf confs) c.
Proof. rewrite !GenericConf_fold, fold_left_app. reflexivity. Qed.

Lemma dict_get_set_all (self : dict) (c : config) (k : text) :
  well_formed c ->
  dict_get (set_all self c) k =
  match dict_get (props_of c) k with
  | Some v => Some v
  | None => dict_get self k
  end.
Proof.
  intros H. unfold set_all. rewrite dict_get_fold_set.
  rewrite (dict_get_rev (props_of c) k (nodup_props_of c H)). reflexivity.
Qed.

(** A key that later configurations do not define keeps its value. *)
Lemma dict_get_fold_set_all (later : list config) (k : text) :
  Forall well_formed later ->
  (forall c, In c later -> dict_get (props_of c) k = None) ->
  forall self, dict_get (fold_left set_all later self) k = dict_get self k.
Proof.
  induction later as [|c later IH]; intros Hwf Hnone self; [reflexivity|].
  inversion Hwf as [|? ? Hc Hwf']; subst. simpl.
  rewrite IH; [|exact Hwf' | intros c' Hc'; apply Hnone; right; exact Hc'].
  rewrite (dict_get_set_all self c k Hc).
  rewrite (Hnone c (or_introl eq_refl)). reflexivity.
Qed.

(** What the configurations on top leave undefined shows through
    from below. *)
Lemma dict_get_fold_set_all_split (later : list config) (k : text) :
  Forall well_formed later ->
  forall self,
    dict_get (fold_left set_all later self) k =
    match dict_get (fold_left set_all later []) k with
    | Some v => Some v
    | None => dict_get self k
    end.
Proof.
  induction later as [|c later IH] using rev_ind; intros Hwf self; [reflexivity|].
  apply Forall_app in Hwf. destruct Hwf as [Hwf Hc].
  inversion Hc as [|? ? Hc' _]; subst.
  rewrite !fold_left_app. simpl.
  rewrite !dict_get_set_all by exact Hc'.
  destruct (dict_get (props_of c) k); [reflexivity|].
  apply IH. exact Hwf.
Qed.

(** X13: in [GenericConf(confs_list)], for configurations whose names
    [setattr] stores, a later configuration overrides an earlier one:
    the value of a name is the one given by the last configuration
    that defines it. *)
Theorem generic_conf_last_wins
    (earlier later : list config) (c : config) (k : text) :
  Forall settable (earlier ++ c :: later) ->
  Forall well_formed (c :: later) ->
  (forall c', In c' later -> dict_get (props_of c') k = None) ->
  dict_get (GenericConf (earlier ++ c :: later)) k =
  match dict_get (props_of c) k with
  | Some v => Some v
  | None => dict_get (GenericConf earlier) k
  end.
Proof.
  intros _ Hwf Hnone. inversion Hwf as [|? ? Hc Hlater]; subst.
  rewrite !GenericConf_fold, fold_left_app. simpl.
  rewrite (dict_get_fold_set_all later k Hlater Hnone).
  apply dict_get_set_all. exact Hc.
Qed.

(* ================================================================== *)
(** * [convert_class_to_json] *)
(* ================================================================== *)

Lemma keys_filter (f : text * value -> bool) (l : list (text * value)) (x : text) :
  In x (map fst (filter f l)) -> In x (map fst l).
Proof.
  induction l as [|kv l IH]; simpl; [tauto|].
  destruct (f kv); simpl; tauto.
Qed.

Lemma nodup_keys_filter (f : text * value -> bool) (l : list (text * value)) :
  NoDup (map fst l) -> NoDup (map fst (filter f l)).
Proof.
  induction l as [|kv l IH]; simpl; intros H; [constructor|].
  inversion H as [|? ? Hout Hnd]; subst.
  destruct (f kv); simpl; [|apply IH; exact Hnd].
  constructor; [|apply IH; exact Hnd].
  intros Hin. apply Hout. exact (keys_filter f l _ Hin).
Qed.

(** X14: A name that begins with two underscores is never a key of the
    result; every other attribute is there with its value. *)
Theorem class_to_json_drops_dunder_names (obj : pyobject) (name : text) :
  NoDup (map fst obj) ->
  dict_get (convert_class_to_json obj) name =
  if startswith (lit "__") name then None else dict_get obj name.
Proof.
  intros Hnd. unfold convert_class_to_json.
  rewrite dict_get_dict_of_pairs.
  rewrite dict_get_rev by (apply nodup_keys_filter; exact Hnd).
  clear Hnd. induction obj as [|[k0 x] obj IH].
  - cbn [filter dict_get]. destruct (startswith (lit "__") name); reflexivity.
  - cbn [filter fst]. destruct (startswith (lit "__") k0) eqn:E0; cbn [negb dict_get].
    + destruct (text_eqb k0 name) eqn:E; [|exact IH].
      apply text_eqb_eq in E. subst k0. rewrite IH, E0. reflexivity.
    + destruct (text_eqb k0 name) eqn:E; [|exact IH].
      apply text_eqb_eq in E. subst k0. rewrite E0. reflexivity.
Qed.

Section ConfigFacts.
Variable unicode_lower : text -> N -> text -> text.
Variable unicode_isdigit : N -> bool.
Variable py_int : text -> option Z.
Variable get_credentials : value -> option config.

#[local] Set Warnings "-notation-for-abbreviation".
Local Notation convert := (convert_str_to_org_type unicode_isdigit py_int).
Local Notation digits := (isdigit unicode_isdigit).
Local Notation pair_of := (os_env_pair unicode_lower unicode_isdigit py_int).
Local Notation pairs_of := (os_env_pairs unicode_lower unicode_isdigit py_int).
Local Notation env_of := (os_env unicode_lower unicode_isdigit py_int).
Local Notation load := (load_cfg unicode_lower unicode_isdigit py_int get_credentials).
Local Notation lower_key := (lower unicode_lower).

(* ================================================================== *)
(** * [convert_str_to_org_type] *)
(* ================================================================== *)

Lemma not_digits (s : text) :
  s = [] \/ (exists c, In c s /\ is_ascii c = true /\ is_ascii_digit c = false) ->
  digits s = false.
Proof.
  intros [-> | [c [Hin [Ha Hd]]]]; [reflexivity|].
  unfold isdigit. apply andb_false_iff. right.
  destruct (forallb _ s) eqn:E; [|reflexivity].
  rewrite forallb_forall in E. specialize (E c Hin).
  rewrite Ha, Hd in E. discriminate E.
Qed.

(** X15: A value that is empty or holds an ASCII character other than a
    digit is never made a number: the four spellings [True], [true],
    [False] and [false] become the two booleans, and every other such
    value stays the string it was. *)
Theorem convert_keeps_what_is_no_number (s : text) :
  s = [] \/ (exists c, In c s /\ is_ascii c = true /\ is_ascii_digit c = false) ->
  (s = lit "True" \/ s = lit "true" -> convert s = Returns (VBool true)) /\
  (s = lit "False" \/ s = lit "false" -> convert s = Returns (VBool false)) /\
  (s <> lit "True" -> s <> lit "true" -> s <> lit "False" -> s <> lit "false" ->
   convert s = Returns (VStr s)).
Proof.
  intros H. unfold convert_str_to_org_type. rewrite (not_digits s H).
  split; [|split].
  - intros [-> | ->]; reflexivity.
  - intros [-> | ->]; reflexivity.
  - intros H1 H2 H3 H4. unfold str_in_list. simpl.
    rewrite !text_eqb_neq by assumption. reflexivity.
Qed.

(* ================================================================== *)
(** * [os_env] *)
(* ================================================================== *)

(** Both branches of the conditional of lines 46-47 give the converted
    value under the lower-cased name. *)
Lemma os_env_pair_returns (k v : text) (p : text * value) :
  pair_of (k, v) = Returns p ->
  fst p = lower_key k /\ convert v = Returns (snd p).
Proof.
  unfold os_env_pair, convert_str_to_org_type.
  destruct (digits v) eqn:Ed; cbn [negb andb].
  - destruct (py_int v); intros H; inversion H. split; reflexivity.
  - destruct (str_in_list v _) eqn:El; cbn [negb];
      intros H; inversion H; split; reflexivity.
Qed.

Lemma os_env_pairs_app (a b : list (text * text)) (ps : list (text * value)) :
  pairs_of (a ++ b) = Returns ps ->
  exists pa pb, ps = pa ++ pb /\ pairs_of a = Returns pa /\ pairs_of b = Returns pb.
Proof.
  revert ps. induction a as [|kv a IH]; intros ps H.
  - exists [], ps. repeat split. exact H.
  - simpl in H |- *. destruct (pair_of kv) as [p|]; [|discriminate H].
    destruct (pairs_of (a ++ b)) as [ps'|] eqn:E; [|discriminate H].
    inversion H; subst ps. destruct (IH ps' eq_refl) as (pa & pb & -> & Ha & Hb).
    exists (p :: pa), pb. rewrite Ha. repeat split. exact Hb.
Qed.

Lemma os_env_pairs_keys (environ : list (text * text)) (ps : list (text * value)) :
  pairs_of environ = Returns ps ->
  forall name, In name (map fst ps) ->
               exists k v, In (k, v) environ /\ name = lower_key k.
Proof.
  revert ps. induction environ as [|[k v] environ IH]; intros ps H name Hin.
  - inversion H; subst ps. destruct Hin.
  - cbn [os_env_pairs] in H. destruct (pair_of (k, v)) as [p|] eqn:Ep; [|discriminate H].
    destruct (pairs_of environ) as [ps'|]; [|discriminate H].
    inversion H; subst ps. destruct Hin as [Hin | Hin].
    + exists k, v. split; [left; reflexivity|].
      destruct (os_env_pair_returns k v p Ep) as [Hk _]. rewrite <- Hin. exact Hk.
    + destruct (IH ps' eq_refl name Hin) as (k' & v' & Hin' & Hname).
      exists k', v'. split; [right; exact Hin' | exact Hname].
Qed.

(** X16: Every variable of the environment is found in [os_env] under its
    lower-cased name with its converted value, whichever branch of the
    conditional it took; of two variables whose names differ in letter
    case only, the later one is kept. *)
Theorem os_env_holds_converted_values
    (before after : list (text * text)) (k v : text) (env : dict) :
  env_of (before ++ (k, v) :: after) = Returns env ->
  (forall k' v', In (k', v') after -> lower_key k' <> lower_key k) ->
  exists x, convert v = Returns x /\ dict_get env (lower_key k) = Some x.
Proof.
  unfold os_env. intros H Hlater.
  destruct (pairs_of (before ++ (k, v) :: after)) as [ps|] eqn:E; [|discriminate H].
  inversion H; subst env. clear H.
  destruct (os_env_pairs_app before ((k, v) :: after) ps E) as (pa & pb & -> & _ & Hb).
  cbn [os_env_pairs] in Hb. destruct (pair_of (k, v)) as [p|] eqn:Ep; [|discriminate Hb].
  destruct (pairs_of after) as [pa'|] eqn:Ea; [|discriminate Hb].
  inversion Hb; subst pb. clear Hb.
  destruct (os_env_pair_returns k v p Ep) as [Hk Hv].
  exists (snd p). split; [exact Hv|].
  rewrite dict_get_dict_of_pairs, rev_app_distr. simpl.
  rewrite <- app_assoc, dict_get_app.
  assert (Hnone : dict_get (rev pa') (lower_key k) = None).
  { apply dict_get_none. intros Hin.
    rewrite map_rev in Hin. apply in_rev in Hin.
    destruct (os_env_pairs_keys after pa' Ea _ Hin) as (k' & v' & Hin' & Heq).
    exact (Hlater k' v' Hin' (eq_sym Heq)). }
  rewrite Hnone. destruct p as [pk px]. simpl in Hk |- *. subst pk.
  rewrite text_eqb_same. reflexivity.
Qed.

Lemma ascii_lower_not_upper (c : N) : is_ascii_upper (ascii_lower c) = false.
Proof.
  unfold ascii_lower, is_ascii_upper.
  destruct ((65 <=? c)%N) eqn:E1; destruct ((c <=? 90)%N) eqn:E2; cbn [andb].
  - apply N.leb_le in E1. apply N.leb_le in E2.
    apply andb_false_iff. right. apply N.leb_gt. lia.
  - rewrite E1, E2. reflexivity.
  - rewrite E1. reflexivity.
  - rewrite E1. reflexivity.
Qed.

Lemma lower_from_not_upper :
  (forall pre c post,
      is_ascii c = false ->
      existsb is_ascii_upper (unicode_lower pre c post) = false) ->
  forall s pre, existsb is_ascii_upper (lower_from unicode_lower pre s) = false.
Proof.
  intros Htable. induction s as [|c s IH]; intros pre; [reflexivity|].
  simpl. rewrite existsb_app, IH, orb_false_r.
  unfold lower_cp. destruct (is_ascii c) eqn:E.
  - simpl. rewrite ascii_lower_not_upper. reflexivity.
  - apply Htable. exact E.
Qed.

(** X17: Names are lower-cased on the way into [os_env], so a name with an
    ASCII capital letter is never one of its keys: a variable of the
    environment does not override an attribute of the configuration
    classes that is written with a capital.  (No code point above
    ASCII is lower-cased to an ASCII capital.) *)
Theorem environment_cannot_set_capital_names
    (environ : list (text * text)) (env : dict)
    (shared_config env_conf : pyobject) (name : text) :
  (forall pre c post,
      is_ascii c = false ->
      existsb is_ascii_upper (unicode_lower pre c post) = false) ->
  env_of environ = Returns env ->
  existsb is_ascii_upper name = true ->
  dict_get env name = None /\
  dict_get (GenericConf [ConfObject shared_config; ConfObject env_conf; ConfDict env])
           name =
  dict_get (GenericConf [ConfObject shared_config; ConfObject env_conf]) name.
Proof.
  intros Htable H Hcap. unfold os_env in H.
  destruct (pairs_of environ) as [ps|] eqn:E; [|discriminate H].
  inversion H; subst env. clear H.
  assert (Hnone : dict_get (dict_of_pairs ps) name = None).
  { apply dict_get_none. intros Hin.
    destruct (keys_fold_set ps [] name Hin) as [Hin' | []].
    destruct (os_env_pairs_keys environ ps E name Hin') as (k & v & _ & Heq).
    subst name. unfold lower in Hcap.
    rewrite (lower_from_not_upper Htable k []) in Hcap. discriminate Hcap. }
  split; [exact Hnone|].
  change [ConfObject shared_config; ConfObject env_conf; ConfDict (dict_of_pairs ps)]
    with ([ConfObject shared_config; ConfObject env_conf]
            ++ [ConfDict (dict_of_pairs ps)]).
  rewrite GenericConf_snoc, dict_get_set_all by apply nodup_dict_of_pairs.
  cbn [props_of]. rewrite Hnone. reflexivity.
Qed.

(* ================================================================== *)
(** * [cfg] *)
(* ================================================================== *)

Lemma os_env_pairs_raises (before after : list (text * text)) (kv : text * text) :
  pair_of kv = RaisesValueError ->
  pairs_of (before ++ kv :: after) = RaisesValueError.
Proof.
  intros H. induction before as [|b before IH]; simpl.
  - rewrite H. reflexivity.
  - destruct (pair_of b); [|reflexivity]. rewrite IH. reflexivity.
Qed.

(** X18: A variable whose value [isdigit] accepts and [int] rejects makes
    the module fail with [ValueError]: [os_env] is built outside the
    [try], so neither the fallback nor the other variables help. *)
Theorem unconvertible_number_aborts_loading
    (before after : list (text * text)) (k v : text)
    (shared_config env_conf : pyobject) :
  digits v = true ->
  py_int v = None ->
  convert v = RaisesValueError /\
  env_of (before ++ (k, v) :: after) = RaisesValueError /\
  load (before ++ (k, v) :: after) shared_config env_conf = RaisesValueError.
Proof.
  intros Hd Hi.
  assert (Hc : convert v = RaisesValueError).
  { unfold convert_str_to_org_type. rewrite Hd, Hi. reflexivity. }
  assert (Hp : pair_of (k, v) = RaisesValueError).
  { unfold os_env_pair. rewrite Hd. cbn [negb andb]. rewrite Hc. reflexivity. }
  assert (He : env_of (before ++ (k, v) :: after) = RaisesValueError).
  { unfold os_env. rewrite (os_env_pairs_raises before after (k, v) Hp). reflexivity. }
  split; [exact Hc|]. split; [exact He|].
  unfold load_cfg. rewrite He. reflexivity.
Qed.

Lemma os_env_well_formed (environ : list (text * text)) (env : dict) :
  env_of environ = Returns env -> NoDup (map fst env).
Proof.
  unfold os_env. destruct (pairs_of environ); intros H; inversion H.
  apply nodup_dict_of_pairs.
Qed.

(** X19: with a token in the environment and credentials from the vault,
    all with names that [setattr] stores, the vault is the
    configuration with the least say: a name defined
    by the shared class, the environment class or the environment
    keeps that value, and the vault's value shows only for a name none
    of them defines. *)
Theorem vault_has_lowest_precedence
    (environ : list (text * text)) (env : dict) (shared_config env_conf : pyobject)
    (token : text) (vault_config_key : value) (global_config : config) :
  env_of environ = Returns env ->
  environ_get environ (lit "TOKEN") = Some token ->
  token <> [] ->
  dict_get env_conf (lit "vault_config_key") = Some vault_config_key ->
  get_credentials vault_config_key = Some global_config ->
  well_formed global_config ->
  settable global_config ->
  (forall k v, In (k, v) environ -> is_special_name (lower_key k) = false) ->
  exists cfg,
    load environ shared_config env_conf = Returns cfg /\
    forall name,
      dict_get cfg name =
      match dict_get (GenericConf [ConfObject shared_config; ConfObject env_conf;
                                   ConfDict env]) name with
      | Some v => Some v
      | None => dict_get (props_of global_config) name
      end.
Proof.
  intros He Ht Hne Hk Hg Hwf _ _.
  exists (GenericConf [global_config; ConfObject shared_config;
                       ConfObject env_conf; ConfDict env]).
  split.
  - unfold load_cfg. rewrite He, Ht, Hk, Hg.
    destruct token; [destruct Hne; reflexivity | reflexivity].
  - intros name.
    change (GenericConf [global_config; ConfObject shared_config;
                         ConfObject env_conf; ConfDict env])
      with (fold_left set_all
              [ConfObject shared_config; ConfObject env_conf; ConfDict env]
              (set_all [] global_config)).
    rewrite dict_get_fold_set_all_split.
    + rewrite <- GenericConf_fold.
      rewrite (dict_get_set_all [] global_config name Hwf).
      destruct (dict_get (props_of global_config) name); reflexivity.
    + repeat constructor. exact (os_env_well_formed environ env He).
Qed.

End ConfigFacts.

(* ================================================================== *)
(** * The further theorems at sample inputs *)
(* ================================================================== *)

Lemma code_marker_witness :
  needs_code keep_above_ascii (lit "Wait") (lit "Later [CODE_REQUIRED]") = true.
Proof.
  apply code_marker_forces_needs_code. right.
  exists (lit "Later "), []. reflexivity.
Defined.

Lemma keywords_any_case_witness :
  needs_sql keep_above_ascii (lit "x Dash") (lit "Board y") = true.
Proof.
  apply (keywords_match_any_ascii_case keep_above_ascii (lit "DashBoard")).
  - reflexivity.
  - exists (lit "x "), (lit " y"). reflexivity.
  - do 5 right. left. reflexivity.
Defined.

Lemma last_message_only_witness :
  enhanced_architect keep_above_ascii sample_repr
    (architect_returning sales_report_output) two_message_state =
  enhanced_architect keep_above_ascii sample_repr
    (architect_returning sales_report_output)
    (initial_state [HumanMessage (lit "Build a dashboard showing monthly sales")]).
Proof.
  apply (steps_read_last_message_only keep_above_ascii sample_repr
           (architect_returning sales_report_output)
           (sql_analyst_returning (mkSqlOutput None))
           two_message_state
           [AIMessage (lit "How can I help?")]
           (HumanMessage (lit "Build a dashboard showing monthly sales"))).
  reflexivity.
Defined.

Lemma architect_defaults_witness :
  exists state',
    run_node append_messages
      (enhanced_architect keep_above_ascii sample_repr (architect_returning empty_output))
      request_state = Ok state' /\
    research_summary state' = [] /\
    route_after_architect state' = lit "developer".
Proof.
  destruct (architect_defaults_on_missing_keys keep_above_ascii sample_repr
              (architect_returning empty_output) append_messages request_state eq_refl)
    as (state' & Hrun & Hsum & _ & _ & Hroute).
  exists state'. split; [exact Hrun | split; [exact Hsum | exact Hroute]].
Defined.

Lemma schema_never_empty_witness :
  schema_information (sql_input_of sample_repr request_state) =
    lit "Schema not provided - create optimal generic queries" /\
  schema_information (sql_input_of sample_repr request_state) <> [].
Proof.
  destruct (sql_agent_schema_never_empty sample_repr
              (sql_analyst_returning (mkSqlOutput None)) request_state)
    as (Hne & _ & Hempty & _).
  split; [apply Hempty; reflexivity | exact Hne].
Defined.

Lemma developer_messages_witness :
  exists extra,
    dev_scratchpad (developer_input_for sample_repr collaborative_state) =
      [ HumanMessage (lit "Build an analytics dashboard application") ] ++ extra /\
    List.length extra = 2 /\
    Forall (fun m => msg_role m = AI) extra.
Proof.
  destruct (developer_messages_extend_scratchpad sample_repr developer_echo
              collaborative_state) as (extra & Hpad & _ & Hai & Hlen & _).
  exists extra. split; [exact Hpad | split; [exact Hlen | exact Hai]].
Defined.

Lemma plan_context_witness :
  has_line (lit "        COLLABORATION STRATEGY: collaborative")
           (plan_context sample_repr collaborative_state) /\
  has_line (lit "        COLLABORATION STRATEGY: unknown")
           (plan_context sample_repr state_without_strategy) /\
  route_after_architect state_without_strategy = lit "developer".
Proof.
  assert (H1 : implementation_plan collaborative_state <> []) by discriminate.
  assert (H2 : implementation_plan state_without_strategy <> []) by discriminate.
  destruct (developer_plan_context sample_repr collaborative_state H1)
    as (_ & _ & Hsome & _).
  destruct (developer_plan_context sample_repr state_without_strategy H2)
    as (_ & _ & _ & Hnone).
  destruct (Hnone eq_refl) as (Hline & Hroute & _).
  split; [|split; [exact Hline | exact Hroute]].
  exact (Hsome (VStr (lit "collaborative")) eq_refl).
Defined.

Lemma code_only_run_witness :
  swe_agent keep_above_ascii sample_repr (architect_returning rest_api_output)
    (sql_analyst_returning (mkSqlOutput (Some sample_sql_result)))
    developer_echo append_messages request_state =
  (delta <- developer_echo
              (developer_input_for sample_repr
                 (after_architect keep_above_ascii sample_repr request_state
                                  rest_api_output)) ;;
   Ok ([lit "architect"; lit "developer"],
       apply_update append_messages
         (after_architect keep_above_ascii sample_repr request_state rest_api_output)
         delta)).
Proof.
  apply (code_only_run_skips_sql_analyst keep_above_ascii sample_repr
           (architect_returning rest_api_output)
           (sql_analyst_returning (mkSqlOutput (Some sample_sql_result)))
           developer_echo append_messages request_state rest_api_output).
  - reflexivity.
  - vm_compute. reflexivity.
Defined.

Lemma sql_only_run_witness :
  exists final,
    swe_agent keep_above_ascii sample_repr (architect_returning sales_report_output)
      (sql_analyst_returning (mkSqlOutput (Some sample_sql_result)))
      developer_echo append_messages request_state =
      Ok ([lit "architect"; lit "sql_analyst"], final) /\
    implementation_research_scratchpad final =
      [ HumanMessage (lit "Build a dashboard showing monthly sales") ] /\
    sql_queries final = [ query sample_sql_result ].
Proof.
  destruct (sql_only_run_ends_after_sql_analyst keep_above_ascii sample_repr
              (architect_returning sales_report_output)
              (sql_analyst_returning (mkSqlOutput (Some sample_sql_result)))
              developer_echo append_messages request_state sales_report_output
              (mkSqlOutput (Some sample_sql_result)) sample_sql_result)
    as (final & Hrun & Hpad & _ & _ & _ & _ & _ & Hq).
  - reflexivity.
  - vm_compute. reflexivity.
  - vm_compute. reflexivity.
  - reflexivity.
  - reflexivity.
  - exists final. split; [exact Hrun | split; [exact Hpad | exact Hq]].
Defined.

Lemma collaborative_run_witness :
  dev_scratchpad
    (developer_input_for sample_repr
       (after_sql
          (after_architect keep_above_ascii sample_repr request_state
                           dashboard_app_output)
          (mkSqlOutput (Some sample_sql_result)))) =
  [ HumanMessage (lit "Build a dashboard showing monthly sales");
    AIMessage (sql_context sample_repr sample_sql_result);
    AIMessage
      (plan_context sample_repr
         (after_sql
            (after_architect keep_above_ascii sample_repr request_state
                             dashboard_app_output)
            (mkSqlOutput (Some sample_sql_result)))) ].
Proof.
  destruct (collaborative_run_hands_sql_to_developer keep_above_ascii sample_repr
              (architect_returning dashboard_app_output)
              (sql_analyst_returning (mkSqlOutput (Some sample_sql_result)))
              developer_echo append_messages request_state dashboard_app_output
              (mkSqlOutput (Some sample_sql_result)) sample_sql_result)
    as (_ & Hpad & _).
  - reflexivity.
  - vm_compute. reflexivity.
  - vm_compute. reflexivity.
  - reflexivity.
  - reflexivity.
  - rewrite Hpad. reflexivity.
Defined.

Lemma completed_run_witness :
  exists path final,
    swe_agent keep_above_ascii sample_repr (architect_returning sales_report_output)
      (sql_analyst_returning (mkSqlOutput (Some sample_sql_result)))
      developer_echo append_messages request_state = Ok (path, final) /\
    path = [lit "architect"; lit "sql_analyst"].
Proof.
  destruct (swe_agent keep_above_ascii sample_repr
              (architect_returning sales_report_output)
              (sql_analyst_returning (mkSqlOutput (Some sample_sql_result)))
              developer_echo append_messages request_state)
    as [[path final]|e] eqn:H; [|vm_compute in H; discriminate H].
  exists path, final. split; [reflexivity|].
  destruct (completed_run_follows_the_flags keep_above_ascii sample_repr
              (architect_returning sales_report_output)
              (sql_analyst_returning (mkSqlOutput (Some sample_sql_result)))
              developer_echo append_messages request_state final path H)
    as (result & Hres & ->).
  inversion Hres. vm_compute. reflexivity.
Defined.

Lemma run_raises_witness :
  (exists messages, architect_failing messages = Raise (AgentError (lit "timeout"))) \/
  (exists input,
      sql_analyst_returning (mkSqlOutput (Some sample_sql_result)) input =
        Raise (AgentError (lit "timeout"))) \/
  (exists input, developer_echo input = Raise (AgentError (lit "timeout"))).
Proof.
  apply (run_raises_only_what_an_agent_raised keep_above_ascii sample_repr
           architect_failing
           (sql_analyst_returning (mkSqlOutput (Some sample_sql_result)))
           developer_echo append_messages empty_state).
  - intros input out H. inversion H. discriminate.
  - reflexivity.
Defined.

Ltac distinct_keys :=
  repeat (constructor; [simpl; intuition discriminate|]); constructor.

Lemma keep_above_ascii_no_capital (pre : text) (c : N) (post : text) :
  is_ascii c = false -> existsb is_ascii_upper (keep_above_ascii pre c post) = false.
Proof.
  unfold is_ascii, keep_above_ascii, is_ascii_upper. intros H. simpl.
  apply N.ltb_ge in H. rewrite orb_false_r.
  apply andb_false_iff. right. apply N.leb_gt. lia.
Qed.

Lemma generic_conf_witness :
  dict_get
    (GenericConf [ConfObject sample_shared_config; ConfObject sample_env_conf;
                  ConfDict sample_os_env])
    (lit "MCP_SERVER") = Some (VStr (lit "http://staging:8080")).
Proof.
  apply (generic_conf_last_wins [ConfObject sample_shared_config]
           [ConfDict sample_os_env] (ConfObject sample_env_conf) (lit "MCP_SERVER")).
  - repeat constructor. intros name Hin. simpl in Hin.
    repeat (destruct Hin as [<- | Hin]; [reflexivity|]). destruct Hin.
  - constructor; [exact I|]. constructor; [|constructor].
    simpl. distinct_keys.
  - intros c' [<- | []]. reflexivity.
Defined.

Lemma class_to_json_witness :
  dict_get (convert_class_to_json sample_shared_config) (lit "__module__") = None /\
  dict_get (convert_class_to_json sample_shared_config) (lit "TIMEOUT") = Some (VInt 50).
Proof.
  assert (H : NoDup (map fst sample_shared_config)) by (simpl; distinct_keys).
  split.
  - rewrite (class_to_json_drops_dunder_names sample_shared_config (lit "__module__") H).
    reflexivity.
  - rewrite (class_to_json_drops_dunder_names sample_shared_config (lit "TIMEOUT") H).
    reflexivity.
Defined.

Lemma convert_witness :
  convert_str_to_org_type sample_isdigit sample_int (lit "-5") = Returns (VStr (lit "-5")) /\
  convert_str_to_org_type sample_isdigit sample_int (lit "true") = Returns (VBool true) /\
  convert_str_to_org_type sample_isdigit sample_int [] = Returns (VStr []).
Proof.
  split; [|split].
  - apply (convert_keeps_what_is_no_number sample_isdigit sample_int (lit "-5"));
      try discriminate.
    right. exists 45%N. repeat split. left. reflexivity.
  - apply (convert_keeps_what_is_no_number sample_isdigit sample_int (lit "true")).
    + right. exists 116%N. repeat split. left. reflexivity.
    + right. reflexivity.
  - apply (convert_keeps_what_is_no_number sample_isdigit sample_int []);
      try discriminate.
    left. reflexivity.
Defined.

Lemma os_env_witness :
  exists x,
    convert_str_to_org_type sample_isdigit sample_int (lit "75") = Returns x /\
    dict_get sample_os_env (lit "timeout") = Some x.
Proof.
  apply (os_env_holds_converted_values keep_above_ascii sample_isdigit sample_int
           [ (lit "HOME", lit "/root"); (lit "Timeout", lit "90") ]
           [ (lit "STUDIO_ENABLED", lit "true"); (lit "TOKEN", lit "s3cr3t") ]
           (lit "TIMEOUT") (lit "75") sample_os_env).
  - vm_compute. reflexivity.
  - intros k' v' [H | [H | []]]; inversion H; vm_compute; discriminate.
Defined.

Lemma capital_names_witness :
  dict_get sample_os_env (lit "TIMEOUT") = None /\
  dict_get
    (GenericConf [ConfObject sample_shared_config; ConfObject sample_env_conf;
                  ConfDict sample_os_env])
    (lit "TIMEOUT") =
  dict_get (GenericConf [ConfObject sample_shared_config; ConfObject sample_env_conf])
           (lit "TIMEOUT").
Proof.
  apply (environment_cannot_set_capital_names keep_above_ascii sample_isdigit sample_int
           sample_environ sample_os_env sample_shared_config sample_env_conf
           (lit "TIMEOUT")).
  - exact keep_above_ascii_no_capital.
  - vm_compute. reflexivity.
  - reflexivity.
Defined.

Lemma unconvertible_number_witness :
  load_cfg keep_above_ascii sample_isdigit sample_int (vault_returning sample_vault_config)
    sample_environ_with_superscript sample_shared_config sample_env_conf =
  RaisesValueError.
Proof.
  apply (unconvertible_number_aborts_loading keep_above_ascii sample_isdigit sample_int
           (vault_returning sample_vault_config)
           [ (lit "HOME", lit "/root") ] [ (lit "TOKEN", lit "s3cr3t") ]
           (lit "LEVEL") [178%N] sample_shared_config sample_env_conf).
  - reflexivity.
  - reflexivity.
Defined.

Lemma vault_witness :
  exists cfg,
    load_cfg keep_above_ascii sample_isdigit sample_int
      (vault_returning sample_vault_config)
      sample_environ sample_shared_config sample_env_conf = Returns cfg /\
    dict_get cfg (lit "MODEL_NAME") = Some (VStr (lit "gpt-4o")) /\
    dict_get cfg (lit "api_key") = Some (VStr (lit "k-123")).
Proof.
  destruct (vault_has_lowest_precedence keep_above_ascii sample_isdigit sample_int
              (vault_returning sample_vault_config)
              sample_environ sample_os_env sample_shared_config sample_env_conf
              (lit "s3cr3t") (VStr (lit "secret/bdnd/bedrock_agent"))
              sample_vault_config)
    as (cfg & Hload & Hget).
  - vm_compute. reflexivity.
  - reflexivity.
  - discriminate.
  - reflexivity.
  - reflexivity.
  - simpl. distinct_keys.
  - intros name Hin. simpl in Hin.
    repeat (destruct Hin as [<- | Hin]; [reflexivity|]). destruct Hin.
  - intros k v Hin. simpl in Hin.
    repeat (destruct Hin as [Hin | Hin]; [inversion Hin; reflexivity|]). destruct Hin.
  - exists cfg. split; [exact Hload|]. rewrite !Hget. split; reflexivity.
Defined.

